(** * The chat widget controller of [static/app.js]

    A shallow embedding of the browser-side chat wiring: the DOM state the
    script owns, [appendMessage], [showTyping], the asynchronous
    [sendMessage] with its two suspension points, the event handlers, and
    the properties of the message flow. *)

From Stdlib Require Import NArith List String Ascii Bool Lia PrimFloat.
From stdpp Require Import base list.
Import ListNotations.

Local Set Warnings "-register-all,-inexact-float".
Local Open Scope N_scope.
Local Open Scope list_scope.

(** ** JavaScript strings

    A JavaScript string is a sequence of UTF-16 code units.  String
    literals of the script are ASCII and are written with [str]. *)

Abbreviation code_unit := N (only parsing).
Abbreviation jsstring := (list N) (only parsing).

Definition str (s : string) : jsstring :=
  map N_of_ascii (list_ascii_of_string s).

(** [WhiteSpace] and [LineTerminator] of ECMAScript, the code units that
    [String.prototype.trim] strips. *)
Definition is_white_space (c : code_unit) : bool :=
  (c =? 9) || (c =? 10) || (c =? 11) || (c =? 12) || (c =? 13) ||
  (c =? 32) || (c =? 160) || (c =? 5760) ||
  ((8192 <=? c) && (c <=? 8202)) ||
  (c =? 8232) || (c =? 8233) || (c =? 8239) || (c =? 8287) ||
  (c =? 12288) || (c =? 65279).

Fixpoint trimStart (s : jsstring) : jsstring :=
  match s with
  | c :: rest => if is_white_space c then trimStart rest else s
  | [] => []
  end.

Definition trimEnd (s : jsstring) : jsstring :=
  rev (trimStart (rev s)).

Definition trim (s : jsstring) : jsstring :=
  trimEnd (trimStart s).

(** Equality of strings ([===] on two strings). *)
Fixpoint str_eqb (a b : jsstring) : bool :=
  match a, b with
  | [], [] => true
  | x :: a', y :: b' => (x =? y) && str_eqb a' b'
  | _, _ => false
  end.

(** Decimal digits of a non-negative integer, as [ToString] prints an
    integer-valued number such as an HTTP status. *)
Fixpoint uint_units (d : Decimal.uint) : jsstring :=
  match d with
  | Decimal.Nil => []
  | Decimal.D0 d => 48 :: uint_units d
  | Decimal.D1 d => 49 :: uint_units d
  | Decimal.D2 d => 50 :: uint_units d
  | Decimal.D3 d => 51 :: uint_units d
  | Decimal.D4 d => 52 :: uint_units d
  | Decimal.D5 d => 53 :: uint_units d
  | Decimal.D6 d => 54 :: uint_units d
  | Decimal.D7 d => 55 :: uint_units d
  | Decimal.D8 d => 56 :: uint_units d
  | Decimal.D9 d => 57 :: uint_units d
  end.

Definition decimal (n : N) : jsstring := uint_units (N.to_uint n).

(** [contains sub s]: [sub] occurs in [s] as a contiguous run. *)
Definition contains (sub s : jsstring) : Prop :=
  exists pre post, s = pre ++ sub ++ post.

(** ** JavaScript values

    The values a parsed JSON body can hold, and [undefined], which a
    property read yields for a missing property. *)

Inductive value : Type :=
| VUndefined
| VNull
| VBool (b : bool)
| VNum (f : float)
| VStr (s : jsstring)
| VArr (items : list value)
| VObj (props : list (jsstring * value)).

(** Exceptions that reach the [catch] block: the rejection of [fetch], the
    rejection of [resp.json()], the [TypeError] of reading a property of
    [null] or [undefined], and the [TypeError] of converting to a string an
    object that has no usable [toString] and [valueOf]. *)
Inductive Exn : Type :=
| FetchRejection (reason : jsstring)
| JsonRejection (reason : jsstring)
| TypeErrorNullish (prop : jsstring)
| TypeErrorToPrimitive.

(** [ToBoolean]. *)
Definition truthy (v : value) : bool :=
  match v with
  | VUndefined | VNull => false
  | VBool b => b
  | VNum f => negb (PrimFloat.eqb f 0%float || negb (PrimFloat.eqb f f))
  | VStr s => match s with [] => false | _ => true end
  | VArr _ | VObj _ => true
  end.

Fixpoint lookup_prop (k : jsstring) (props : list (jsstring * value))
  : option value :=
  match props with
  | [] => None
  | (k', v) :: rest => if str_eqb k k' then Some v else lookup_prop k rest
  end.

(** [v.k] for a property name [k] that no built-in prototype defines
    ([response], [intent] and [confidence] are such names): an own property
    of an object, [undefined] on every other value that has properties, and
    a [TypeError] on [null] and [undefined].  [props] lists the own
    properties of the parsed object, each key once. *)
Definition Get (v : value) (k : jsstring) : Exn + value :=
  match v with
  | VUndefined | VNull => inl (TypeErrorNullish k)
  | VObj props =>
      match lookup_prop k props with
      | Some x => inr x
      | None => inr VUndefined
      end
  | _ => inr VUndefined
  end.

(** ** [JSON.stringify] of the request object

    [QuoteJSONString] of ECMAScript: the string between double quotes, with
    the short escapes, and a [\u] escape for the other control characters
    and for a surrogate that is not part of a pair. *)

Definition is_leading_surrogate (c : code_unit) : bool :=
  (55296 <=? c) && (c <=? 56319).
Definition is_trailing_surrogate (c : code_unit) : bool :=
  (56320 <=? c) && (c <=? 57343).

Definition hex_digit (d : N) : code_unit :=
  if d <? 10 then 48 + d else 87 + d.

(** [UnicodeEscape]: backslash, [u] and four lowercase hexadecimal digits. *)
Definition UnicodeEscape (c : code_unit) : jsstring :=
  [92; 117; hex_digit ((c / 4096) mod 16); hex_digit ((c / 256) mod 16);
   hex_digit ((c / 16) mod 16); hex_digit (c mod 16)].

(** The escape of one code unit that is not half of a surrogate pair. *)
Definition quote_unit (c : code_unit) : jsstring :=
  if c =? 8 then [92; 98]
  else if c =? 9 then [92; 116]
  else if c =? 10 then [92; 110]
  else if c =? 12 then [92; 102]
  else if c =? 13 then [92; 114]
  else if c =? 34 then [92; 34]
  else if c =? 92 then [92; 92]
  else if (c <? 32) || is_leading_surrogate c || is_trailing_surrogate c
       then UnicodeEscape c
  else [c].

Fixpoint quote_units (s : jsstring) : jsstring :=
  match s with
  | [] => []
  | c :: rest =>
      match rest with
      | d :: rest' =>
          if is_leading_surrogate c && is_trailing_surrogate d
          then c :: d :: quote_units rest'
          else quote_unit c ++ quote_units rest
      | [] => quote_unit c
      end
  end.

Definition QuoteJSONString (s : jsstring) : jsstring :=
  34 :: quote_units s ++ [34].

(** [JSON.stringify({message: value})] for a string [value]: one property,
    no white space. *)
Definition JSON_stringify_message (value : jsstring) : jsstring :=
  123 :: QuoteJSONString (str "message") ++ 58 :: QuoteJSONString value
      ++ [125].

(** The reader's side of the request body: a JSON string literal (RFC 8259,
    section 7) read back into code units, up to and including its closing
    quote, and the object with the single member [message]. *)

Definition unhex (c : code_unit) : option N :=
  if (48 <=? c) && (c <=? 57) then Some (c - 48)
  else if (97 <=? c) && (c <=? 102) then Some (c - 87)
  else if (65 <=? c) && (c <=? 70) then Some (c - 55)
  else None.

Definition unhex4 (a b c d : code_unit) : option code_unit :=
  match unhex a, unhex b, unhex c, unhex d with
  | Some x, Some y, Some z, Some w => Some (4096 * x + 256 * y + 16 * z + w)
  | _, _, _, _ => None
  end.

Definition cons_unit (c : code_unit) (r : option (jsstring * jsstring))
    : option (jsstring * jsstring) :=
  match r with
  | Some (s, rest) => Some (c :: s, rest)
  | None => None
  end.

Fixpoint read_string_body (s : jsstring) : option (jsstring * jsstring) :=
  match s with
  | [] => None
  | c :: rest =>
      if c =? 34 then Some ([], rest)
      else if c =? 92 then
        match rest with
        | [] => None
        | x :: r =>
            if x =? 98 then cons_unit 8 (read_string_body r)
            else if x =? 116 then cons_unit 9 (read_string_body r)
            else if x =? 110 then cons_unit 10 (read_string_body r)
            else if x =? 102 then cons_unit 12 (read_string_body r)
            else if x =? 114 then cons_unit 13 (read_string_body r)
            else if x =? 34 then cons_unit 34 (read_string_body r)
            else if x =? 92 then cons_unit 92 (read_string_body r)
            else if x =? 47 then cons_unit 47 (read_string_body r)
            else if x =? 117 then
              match r with
              | h1 :: h2 :: h3 :: h4 :: r' =>
                  match unhex4 h1 h2 h3 h4 with
                  | Some u => cons_unit u (read_string_body r')
                  | None => None
                  end
              | _ => None
              end
            else None
        end
      else if c <? 32 then None
      else cons_unit c (read_string_body rest)
  end.

(** Consume one expected code unit. *)
Definition expect (c : code_unit) (s : jsstring) : option jsstring :=
  match s with
  | x :: rest => if x =? c then Some rest else None
  | [] => None
  end.

(** An opening brace, the member name as a string literal, a colon, the
    member value as a string literal, a closing brace, and nothing more. *)
Definition read_message_object (s : jsstring) : option jsstring :=
  r ← expect 123 s;
  r ← expect 34 r;
  '(key, r) ← read_string_body r;
  r ← expect 58 r;
  r ← expect 34 r;
  '(v, r) ← read_string_body r;
  r ← expect 125 r;
  if str_eqb key (str "message") && (length r =? 0)%nat then Some v
  else None.

Section Controller.

(** [Number::toString] of the JavaScript engine, the shortest decimal
    representation that reads back as the same double.  It is a built-in of
    the runtime, taken here as given. *)
Variable Number_toString : float -> jsstring.

(** [ToString] of a parsed value.  An array is converted by
    [Array.prototype.join], element by element from the left.  An object is
    converted by [OrdinaryToPrimitive]: without an own property [toString]
    the inherited method gives [[object Object]]; an own property
    [toString] of a parsed object is never callable, [valueOf] then gives
    no primitive either, and the conversion throws a [TypeError]. *)
Fixpoint ToString (v : value) : Exn + jsstring :=
  match v with
  | VUndefined => inr (str "undefined")
  | VNull => inr (str "null")
  | VBool true => inr (str "true")
  | VBool false => inr (str "false")
  | VNum f => inr (Number_toString f)
  | VStr s => inr s
  | VArr items =>
      (fix join (l : list value) : Exn + jsstring :=
         match l with
         | [] => inr []
         | x :: rest =>
             match (match x with
                    | VUndefined | VNull => inr []
                    | _ => ToString x
                    end) with
             | inl e => inl e
             | inr sx =>
                 match rest with
                 | [] => inr sx
                 | _ :: _ =>
                     match join rest with
                     | inl e => inl e
                     | inr sr => inr (sx ++ 44 :: sr)
                     end
                 end
             end
         end) items
  | VObj props =>
      match lookup_prop (str "toString") props with
      | Some _ => inl TypeErrorToPrimitive
      | None => inr (str "[object Object]")
      end
  end.

(** ** The DOM state the script owns *)

(** A node of the document: a text node, or an element with its class
    and its child nodes. *)
Inductive Node : Type :=
| Text (data : jsstring)
| Element (className : jsstring) (childNodes : list Node).

Definition is_element (n : Node) : bool :=
  match n with
  | Element _ _ => true
  | Text _ => false
  end.

(** [parent.children]: the child nodes that are elements. *)
Definition children (childNodes : list Node) : list Node :=
  filter (fun n => is_element n = true) childNodes.

(** The [textContent] getter: the text of the descendants, in tree
    order. *)
Fixpoint textContent (n : Node) : jsstring :=
  match n with
  | Text data => data
  | Element _ childNodes =>
      (fix all (l : list Node) : jsstring :=
         match l with
         | [] => []
         | x :: rest => textContent x ++ all rest
         end) childNodes
  end.

(** The optional third argument of [appendMessage]. *)
Record Meta : Type := mkMeta { intent : value; confidence : value }.

Inductive ConsoleEntry : Type :=
| ConsoleLog (args : list value)
| ConsoleError (label : jsstring) (err : Exn).

(** A call of [fetch]. *)
Record Request : Type := mkRequest {
  url : jsstring;
  method : jsstring;
  headers : list (jsstring * jsstring);
  body : jsstring
}.

(** [input], [messages] and [typing] of the script, with the console and
    the requests issued so far.  [messages] holds the child nodes of the
    container.  The scroll position of the container is layout state and
    is left out. *)
Record State : Type := mkState {
  input_value : jsstring;
  input_focused : bool;
  messages : list Node;
  typing_display : jsstring;
  typing_aria_hidden : jsstring;
  console : list ConsoleEntry;
  network : list Request
}.

(** The conversion of a value assigned to [textContent]: [null] and
    [undefined] give the empty string, every other value goes through
    [ToString], which can throw. *)
Definition DOMString_of (v : value) : Exn + jsstring :=
  match v with
  | VUndefined | VNull => inr []
  | _ => ToString v
  end.

(** The children an element has after its [textContent] is set to a
    string: one text node, or none when the string is empty. *)
Definition set_textContent (s : jsstring) : list Node :=
  match s with
  | [] => []
  | _ :: _ => [Text s]
  end.

Definition sender_class (isBot : bool) : jsstring :=
  if isBot then str "bot" else str "user".

(** The [wrap] element [appendMessage] builds, with its [bubble], for a
    text that has been converted to the string [s]. *)
Definition message_element (s : jsstring) (isBot : bool) : Node :=
  Element (str "message " ++ sender_class isBot)
    [ Element (str "bubble " ++ sender_class isBot) (set_textContent s) ].

(** Lines 18 to 25: the element is attached, and the meta is logged when
    there is one. *)
Definition attach (s : jsstring) (isBot : bool) (meta : option Meta)
    (st : State) : State :=
  let st1 :=
    mkState (input_value st) (input_focused st)
      (messages st ++ [message_element s isBot])
      (typing_display st) (typing_aria_hidden st)
      (console st) (network st) in
  match meta with
  | Some m =>
      mkState (input_value st1) (input_focused st1) (messages st1)
        (typing_display st1) (typing_aria_hidden st1)
        (console st1 ++
           [ConsoleLog [VStr (str "Intent:"); intent m;
                        VStr (str "Confidence:"); confidence m]])
        (network st1)
  | None => st1
  end.

(** [appendMessage]: the assignment of line 16 converts the text and can
    throw, before anything is attached or logged. *)
Definition appendMessage (text : value) (isBot : bool) (meta : option Meta)
    (st : State) : Exn + State :=
  match DOMString_of text with
  | inl e => inl e
  | inr s => inr (attach s isBot meta st)
  end.

Definition showTyping (show : bool) (st : State) : State :=
  mkState (input_value st) (input_focused st) (messages st)
    (if show then str "block" else str "none")
    (if negb show then str "true" else str "false")
    (console st) (network st).

(** The indicator as the user sees it. *)
Definition typing_visible (st : State) : Prop :=
  typing_display st = str "block" /\ typing_aria_hidden st = str "false".
Definition typing_hidden (st : State) : Prop :=
  typing_display st = str "none" /\ typing_aria_hidden st = str "true".

(** ** Completions and [try]/[catch]/[finally]

    [sendMessage] is an [async] function: it runs until an [await], and is
    resumed when the awaited promise settles.  A block completes normally,
    by [return], by a thrown exception, or it is suspended at an [await]. *)

Inductive Frame : Type :=
| AwaitFetch
| AwaitJson.

Inductive Completion : Type :=
| Normal (st : State)
| Return (st : State)
| Throw (e : Exn) (st : State)
| Await (f : Frame) (st : State).

Definition state_of (c : Completion) : State :=
  match c with
  | Normal st | Return st | Throw _ st | Await _ st => st
  end.

Definition with_state (c : Completion) (st : State) : Completion :=
  match c with
  | Normal _ => Normal st
  | Return _ => Return st
  | Throw e _ => Throw e st
  | Await f _ => Await f st
  end.

(** [try { body } catch (err) { handler } finally { finalizer }], given the
    completion of the part of [body] that has run.  A suspended body stays
    suspended; a thrown exception runs the handler; the finalizer then runs
    on every other exit, and a [return] or an exception of its own would
    replace the completion it was entered with. *)
Definition try_catch_finally (body : Completion)
    (handler : Exn -> State -> Completion)
    (finalizer : State -> Completion) : Completion :=
  match body with
  | Await f st => Await f st
  | _ =>
      let c := match body with
               | Throw e st => handler e st
               | _ => body
               end in
      match finalizer (state_of c) with
      | Normal st' => with_state c st'
      | abrupt => abrupt
      end
  end.

(** Sequencing of expressions that can throw. *)
Definition bindE {A B : Type} (m : Exn + A) (k : A -> Exn + B) : Exn + B :=
  match m with
  | inl e => inl e
  | inr a => k a
  end.

Notation "'let*' x ':=' m 'in' k" := (bindE m (fun x => k))
  (at level 10, x name, m at level 100, k at level 200).

(** ** [sendMessage] *)

(** A response of [fetch]: [resp.status]. *)
Record Response : Type := mkResponse { status : N }.

(** [resp.ok]: the status is in the range 200 to 299. *)
Definition ok (resp : Response) : bool :=
  (200 <=? status resp) && (status resp <=? 299).

Definition set_input_value (v : jsstring) (st : State) : State :=
  mkState v (input_focused st) (messages st)
    (typing_display st) (typing_aria_hidden st) (console st) (network st).

Definition focus (st : State) : State :=
  mkState (input_value st) true (messages st)
    (typing_display st) (typing_aria_hidden st) (console st) (network st).

Definition fetch (req : Request) (st : State) : State :=
  mkState (input_value st) (input_focused st) (messages st)
    (typing_display st) (typing_aria_hidden st) (console st)
    (network st ++ [req]).

Definition console_error (label : jsstring) (err : Exn) (st : State)
    : State :=
  mkState (input_value st) (input_focused st) (messages st)
    (typing_display st) (typing_aria_hidden st)
    (console st ++ [ConsoleError label err]) (network st).

(** The request of line 45. *)
Definition chat_request (value : jsstring) : Request :=
  mkRequest (str "/chat") (str "POST")
    [(str "Content-Type", str "application/json")]
    (JSON_stringify_message value).

Definition error_meta : Meta :=
  mkMeta (VStr (str "error")) (VNum 0%float).

Definition server_error_text (resp : Response) : jsstring :=
  str "Server error (" ++ decimal (status resp) ++ str ")".

Definition network_error_text : jsstring :=
  str "Network error: failed to reach the server.".

Definition fallback_text : jsstring :=
  str "I'm sorry, I couldn't process that.".

(** [a || b]. *)
Definition or_else (a b : value) : value :=
  if truthy a then a else b.

(** [data && data.response ? data.response : fallback] of line 57. *)
Definition botText_of (data : value) : Exn + value :=
  let* cond := (if truthy data then Get data (str "response")
                else inr data) in
  if truthy cond then Get data (str "response")
  else inr (VStr fallback_text).

(** The meta object of line 58. *)
Definition meta_of (data : value) : Exn + Meta :=
  let* i := Get data (str "intent") in
  let* c := Get data (str "confidence") in
  inr (mkMeta (or_else i (VStr (str "unknown")))
              (or_else c (VNum 0%float))).

(** The [catch] block and the [finally] block. *)
Definition catch_block (err : Exn) (st : State) : Completion :=
  match appendMessage (VStr network_error_text) true (Some error_meta) st
  with
  | inl e => Throw e st
  | inr st => Normal (console_error (str "Chat send error:") err st)
  end.

Definition finally_block (st : State) : Completion :=
  Normal (showTyping false st).

(** The [try] block from the settlement of [fetch] on (lines 45 to 56). *)
Definition try_after_fetch (r : Exn + Response) (st : State) : Completion :=
  match r with
  | inl e => Throw e st
  | inr resp =>
      if negb (ok resp) then
        match appendMessage (VStr (server_error_text resp)) true
                (Some error_meta) st with
        | inl e => Throw e st
        | inr st => Return st
        end
      else Await AwaitJson st
  end.

(** The [try] block from the settlement of [resp.json()] on (lines 56 to
    58). *)
Definition try_after_json (r : Exn + value) (st : State) : Completion :=
  match r with
  | inl e => Throw e st
  | inr data =>
      match (let* botText := botText_of data in
             let* meta := meta_of data in
             inr (botText, meta)) with
      | inl e => Throw e st
      | inr (botText, meta) =>
          match appendMessage botText true (Some meta) st with
          | inl e => Throw e st
          | inr st => Normal st
          end
      end
  end.

(** [sendMessage] up to its first [await]. *)
Definition sendMessage_start (st : State) : Completion :=
  let value := trim (input_value st) in
  if negb (truthy (VStr value)) then Return st
  else
    match appendMessage (VStr value) false None st with
    | inl e => Throw e st
    | inr st =>
        let st := set_input_value [] st in
        let st := focus st in
        let st := showTyping true st in
        try_catch_finally
          (Await AwaitFetch (fetch (chat_request value) st))
          catch_block finally_block
    end.

(** [sendMessage] resumed when [fetch] settles, and when [resp.json()]
    settles. *)
Definition sendMessage_fetched (r : Exn + Response) (st : State)
    : Completion :=
  try_catch_finally (try_after_fetch r st) catch_block finally_block.

Definition sendMessage_parsed (r : Exn + value) (st : State) : Completion :=
  try_catch_finally (try_after_json r st) catch_block finally_block.

(** What the environment answers to one request: [fetch] never settles, it
    rejects, or it resolves to a response whose body read never settles,
    rejects, or resolves to the parsed JSON. *)
Inductive BodyReply : Type :=
| BodyPending
| BodyRejects (e : Exn)
| BodyResolves (data : value).

Inductive Reply : Type :=
| FetchPending
| FetchRejects (e : Exn)
| FetchResolves (resp : Response) (b : BodyReply).

(** One call of [sendMessage] run against a reply, with no other event in
    between. *)
Definition sendMessage (st : State) (reply : Reply) : Completion :=
  match sendMessage_start st with
  | Await AwaitFetch st1 =>
      match reply with
      | FetchPending => Await AwaitFetch st1
      | FetchRejects e => sendMessage_fetched (inl e) st1
      | FetchResolves resp b =>
          match sendMessage_fetched (inr resp) st1 with
          | Await AwaitJson st2 =>
              match b with
              | BodyPending => Await AwaitJson st2
              | BodyRejects e => sendMessage_parsed (inl e) st2
              | BodyResolves data => sendMessage_parsed (inr data) st2
              end
          | c => c
          end
      end
  | c => c
  end.

(** ** Event handlers *)

Definition greeting_text : jsstring :=
  str "Hi, I'm the Vibeathon bot! You can ask me about joining or registration, event dates and costs, collaborations, social media, GitHub, contact info, current projects, or even provide feedback.".

Definition greeting_meta : Meta :=
  mkMeta (VStr (str "greeting")) (VNum 1%float).

(** The click handler of [sendBtn]. *)
Definition onClick (st : State) : Completion :=
  sendMessage_start st.

(** The keydown handler of [input]. *)
Definition onKeydown (key : jsstring) (shiftKey : bool) (st : State)
    : Completion :=
  if str_eqb key (str "Enter") && negb shiftKey then sendMessage_start st
  else Normal st.

(** The [DOMContentLoaded] handler.  An exception of [appendMessage] would
    end the handler with the page as it was. *)
Definition onDOMContentLoaded (st : State) : State :=
  if Nat.eqb (length (children (messages st))) 0 then
    match appendMessage (VStr greeting_text) true (Some greeting_meta) st
    with
    | inl _ => st
    | inr st => st
    end
  else st.

(** ** The event loop

    Calls of [sendMessage] overlap: each suspended call is a task that the
    settlement of its promise resumes.  A task that has concluded leaves
    [None] in its slot. *)

Record World : Type := mkWorld {
  dom : State;
  tasks : list (option Frame)
}.

Inductive Event : Type :=
| Typed (s : jsstring)
| Click
| Keydown (key : jsstring) (shiftKey : bool)
| DOMContentLoaded
| FetchSettled (i : nat) (r : Exn + Response)
| JsonSettled (i : nat) (r : Exn + value).

(** A handler has run to completion [c]: a suspended call becomes a new
    task. *)
Definition spawn (c : Completion) (w : World) : World :=
  match c with
  | Await f st => mkWorld st (tasks w ++ [Some f])
  | _ => mkWorld (state_of c) (tasks w)
  end.

(** Task [i] has been resumed and has run to completion [c]. *)
Definition resume (i : nat) (c : Completion) (w : World) : World :=
  match c with
  | Await f st => mkWorld st (<[i := Some f]> (tasks w))
  | _ => mkWorld (state_of c) (<[i := None]> (tasks w))
  end.

Definition step (w : World) (ev : Event) : World :=
  match ev with
  | Typed s => mkWorld (set_input_value s (dom w)) (tasks w)
  | Click => spawn (onClick (dom w)) w
  | Keydown key shiftKey => spawn (onKeydown key shiftKey (dom w)) w
  | DOMContentLoaded => mkWorld (onDOMContentLoaded (dom w)) (tasks w)
  | FetchSettled i r =>
      match tasks w !! i with
      | Some (Some AwaitFetch) => resume i (sendMessage_fetched r (dom w)) w
      | _ => w
      end
  | JsonSettled i r =>
      match tasks w !! i with
      | Some (Some AwaitJson) => resume i (sendMessage_parsed r (dom w)) w
      | _ => w
      end
  end.

Definition run (w : World) (evs : list Event) : World :=
  fold_left step evs w.

(** A reply under which the call concludes: [fetch] settles, and the body
    read settles when the body is read at all. *)
Definition concludes (reply : Reply) : Prop :=
  match reply with
  | FetchPending => False
  | FetchRejects _ => True
  | FetchResolves resp b => ok resp = false \/ b <> BodyPending
  end.

(** The async function has finished, and its promise is fulfilled. *)
Definition fulfilled (c : Completion) : Prop :=
  match c with
  | Normal _ | Return _ => True
  | Throw _ _ | Await _ _ => False
  end.

(** The state at the first [await] (lines 39 to 49). *)
Definition at_fetch (st : State) : State :=
  let value := trim (input_value st) in
  fetch (chat_request value)
    (showTyping true
       (focus (set_input_value [] (attach value false None st)))).

(** The state the [catch] block and the [finally] block leave. *)
Definition failed (e : Exn) (st : State) : State :=
  showTyping false
    (console_error (str "Chat send error:") e
       (attach network_error_text true (Some error_meta) st)).

(** The [response] property of a parsed body, when it has one. *)
Definition response_field (data : value) : option value :=
  match data with
  | VObj props => lookup_prop (str "response") props
  | _ => None
  end.

(** What line 57 selects for a body that is not [null]. *)
Definition rendered_reply (data : value) : value :=
  match response_field data with
  | Some v => if truthy v then v else VStr fallback_text
  | None => VStr fallback_text
  end.

Definition nullish (v : value) : bool :=
  match v with
  | VUndefined | VNull => true
  | _ => false
  end.

(** ** Notions for the properties of the event loop *)

(** An own property of a parsed body, when the body is an object that has
    it. *)
Definition own_field (k : jsstring) (data : value) : option value :=
  match data with
  | VObj props => lookup_prop k props
  | _ => None
  end.

(** The value [field || fallback] of line 58 selects. *)
Definition field_or (k : jsstring) (data fallback : value) : value :=
  match own_field k data with
  | Some v => if truthy v then v else fallback
  | None => fallback
  end.

(** The two attributes of the indicator agree. *)
Definition indicator_consistent (st : State) : Prop :=
  typing_visible st \/ typing_hidden st.

(** Some call of [sendMessage] is suspended. *)
Definition pending (w : World) : Prop :=
  exists i f, tasks w !! i = Some (Some f).

(** A message element as the script builds it: a wrapper with one bubble,
    both of the same sender class, the bubble holding text nodes only. *)
Definition is_message (n : Node) : bool :=
  match n with
  | Element c [Element c' inner] =>
      forallb (fun x => negb (is_element x)) inner &&
      ((str_eqb c (str "message bot") && str_eqb c' (str "bubble bot")) ||
       (str_eqb c (str "message user") && str_eqb c' (str "bubble user")))
  | _ => false
  end.

(** What the page shows for a message: the wrapper and the bubble with
    the class of the sender, and in the bubble the text as one text node
    (no node for an empty text). *)
Definition user_node (s : jsstring) : Node :=
  Element (str "message user")
    [ Element (str "bubble user")
        (match s with [] => [] | _ :: _ => [Text s] end) ].

Definition bot_node (s : jsstring) : Node :=
  Element (str "message bot")
    [ Element (str "bubble bot")
        (match s with [] => [] | _ :: _ => [Text s] end) ].

(** The number of elements of a class among the child nodes of the view,
    and the number of calls that have concluded. *)
Definition has_class (cls : jsstring) (n : Node) : bool :=
  match n with
  | Element c _ => str_eqb c cls
  | Text _ => false
  end.

Definition count_class (cls : jsstring) (l : list Node) : nat :=
  length (List.filter (has_class cls) l).

Definition is_concluded (t : option Frame) : bool :=
  match t with
  | None => true
  | Some _ => false
  end.

Definition concluded_count (ts : list (option Frame)) : nat :=
  length (List.filter is_concluded ts).

(** The events that submit the input: a click on the button, and Enter
    without Shift in the input field. *)
Definition submit_event (ev : Event) : bool :=
  match ev with
  | Click => true
  | Keydown key shiftKey => str_eqb key (str "Enter") && negb shiftKey
  | _ => false
  end.

(** ** Concrete inputs

    A page with an empty view and the input [  hello ], a page whose input
    holds blanks only, and replies of the backend.  None of them renders a
    number, so the runtime they are run with is never consulted. *)

Definition example_runtime (f : float) : jsstring := [].

Definition example_state : State :=
  mkState (str "  hello ") false [] (str "none") (str "true") [] [].

Definition blank_state : State :=
  mkState (str "   ") false [] (str "none") (str "true") [] [].

Definition example_body : value :=
  VObj [(str "response", VStr (str "hi"));
        (str "intent", VStr (str "greet"));
        (str "confidence", VNum 0.9%float)].

Definition example_success : Reply :=
  FetchResolves (mkResponse 200) (BodyResolves example_body).


(** A body whose [response] is an object with an own property
    [toString]: its conversion to a string throws. *)
Definition unconvertible_body : value :=
  VObj [(str "response", VObj [(str "toString", VNum 1%float)]);
        (str "intent", VStr (str "faq"));
        (str "confidence", VNum 0.5%float)].

Definition example_rejection : Exn :=
  FetchRejection (str "Failed to fetch").

(** Two calls that overlap: the second request is answered first. *)
Definition example_world : World := mkWorld example_state [].

Definition overlapping_events : list Event :=
  [ Click;
    Typed (str "again");
    Keydown (str "Enter") false;
    FetchSettled 1 (inr (mkResponse 200));
    JsonSettled 1 (inr example_body);
    FetchSettled 0 (inr (mkResponse 503)) ].

(** A page with two requests in flight. *)
Definition two_pending_world : World :=
  mkWorld example_state [Some AwaitFetch; Some AwaitFetch].

Definition example_parse_failure : Exn :=
  JsonRejection (str "Unexpected token < in JSON at position 0").

(** ** Properties of [trim] *)

Lemma trimStart_nil_iff (s : jsstring) :
  trimStart s = [] <-> Forall (fun c => is_white_space c = true) s.
Proof.
  induction s as [|c s IH]; simpl.
  - split; [constructor | reflexivity].
  - destruct (is_white_space c) eqn:Hc.
    + rewrite IH. split.
      * intros H. constructor; assumption.
      * intros H. inversion H; assumption.
    + split; [discriminate |].
      intros H. inversion H as [|? ? Hc' _]. congruence.
Qed.

Lemma trimStart_head (s : jsstring) (c : code_unit) (r : jsstring) :
  trimStart s = c :: r -> is_white_space c = false.
Proof.
  induction s as [|d s IH]; simpl; [discriminate |].
  destruct (is_white_space d) eqn:Hd; [exact IH |].
  intros H. injection H as -> _. exact Hd.
Qed.

Lemma trimStart_fixed (s : jsstring) :
  Forall (fun c => is_white_space c = true) (trimStart s) ->
  trimStart s = [].
Proof.
  destruct (trimStart s) as [|c r] eqn:E; [reflexivity |].
  intros H. inversion H as [|? ? Hc _].
  apply trimStart_head in E. congruence.
Qed.

Lemma trim_nil_iff (s : jsstring) :
  trim s = [] <-> Forall (fun c => is_white_space c = true) s.
Proof.
  unfold trim, trimEnd. split.
  - intros H.
    assert (H1 : trimStart (rev (trimStart s)) = []).
    { destruct (trimStart (rev (trimStart s))); [reflexivity |].
      apply (f_equal (@length _)) in H.
      rewrite length_rev in H. discriminate. }
    apply trimStart_nil_iff in H1.
    apply Forall_rev in H1. rewrite rev_involutive in H1.
    apply trimStart_nil_iff, trimStart_fixed, H1.
  - intros H. apply trimStart_nil_iff in H. rewrite H. reflexivity.
Qed.

(** ** The request body reads back as the text that was sent *)

Lemma unhex_hex_digit (d : N) : d < 16 -> unhex (hex_digit d) = Some d.
Proof.
  intros Hd. unfold hex_digit, unhex.
  destruct (N.ltb_spec d 10) as [Hlt | Hge].
  - replace (48 <=? 48 + d) with true by (symmetry; apply N.leb_le; lia).
    replace (48 + d <=? 57) with true by (symmetry; apply N.leb_le; lia).
    cbn [andb]. f_equal. lia.
  - replace (87 + d <=? 57) with false by (symmetry; apply N.leb_gt; lia).
    rewrite andb_false_r.
    replace (97 <=? 87 + d) with true by (symmetry; apply N.leb_le; lia).
    replace (87 + d <=? 102) with true by (symmetry; apply N.leb_le; lia).
    cbn [andb]. f_equal. lia.
Qed.

Lemma four_digits (c : N) :
  c < 65536 ->
  4096 * ((c / 4096) mod 16) + 256 * ((c / 256) mod 16)
    + 16 * ((c / 16) mod 16) + c mod 16 = c.
Proof.
  intros Hc.
  pose proof (N.div_mod c 16 ltac:(lia)) as H1.
  pose proof (N.div_mod (c / 16) 16 ltac:(lia)) as H2.
  pose proof (N.div_mod (c / 256) 16 ltac:(lia)) as H3.
  replace (c / 16 / 16) with (c / 256) in H2
    by (rewrite N.Div0.div_div; reflexivity).
  replace (c / 256 / 16) with (c / 4096) in H3
    by (rewrite N.Div0.div_div; reflexivity).
  assert (H4 : c / 4096 < 16)
    by (apply N.Div0.div_lt_upper_bound; lia).
  rewrite (N.mod_small (c / 4096) 16 H4).
  lia.
Qed.

Lemma read_UnicodeEscape (c : code_unit) (out : jsstring) :
  c < 65536 ->
  read_string_body (UnicodeEscape c ++ out)
  = cons_unit c (read_string_body out).
Proof.
  intros Hc. unfold UnicodeEscape.
  cbn [app read_string_body N.eqb Pos.eqb].
  unfold unhex4.
  rewrite !unhex_hex_digit by (apply N.mod_lt; lia).
  rewrite (four_digits c Hc). reflexivity.
Qed.

Lemma read_literal (c : code_unit) (out : jsstring) :
  (c =? 34) = false -> (c =? 92) = false -> (c <? 32) = false ->
  read_string_body (c :: out) = cons_unit c (read_string_body out).
Proof.
  intros H34 H92 H32. cbn [read_string_body].
  rewrite H34, H92, H32. reflexivity.
Qed.

Lemma read_quote_unit (c : code_unit) (out : jsstring) :
  read_string_body (quote_unit c ++ out)
  = cons_unit c (read_string_body out).
Proof.
  unfold quote_unit.
  repeat match goal with
         | |- context [if ?x =? ?k then _ else _] =>
             destruct (N.eqb_spec x k) as [-> | ?]; [reflexivity |]
         end.
  destruct ((c <? 32) || is_leading_surrogate c || is_trailing_surrogate c)
    eqn:Hesc.
  - apply read_UnicodeEscape.
    unfold is_leading_surrogate, is_trailing_surrogate in Hesc.
    repeat (apply orb_prop in Hesc; destruct Hesc as [Hesc | Hesc]).
    + apply N.ltb_lt in Hesc. lia.
    + apply andb_prop in Hesc. destruct Hesc as [_ H].
      apply N.leb_le in H. lia.
    + apply andb_prop in Hesc. destruct Hesc as [_ H].
      apply N.leb_le in H. lia.
  - apply orb_false_elim in Hesc. destruct Hesc as [Hesc _].
    apply orb_false_elim in Hesc. destruct Hesc as [H32 _].
    apply read_literal; [apply N.eqb_neq | apply N.eqb_neq |]; assumption.
Qed.

Lemma read_surrogate (c : code_unit) (out : jsstring) :
  55296 <= c ->
  read_string_body (c :: out) = cons_unit c (read_string_body out).
Proof.
  intros Hc.
  apply read_literal;
    [apply N.eqb_neq | apply N.eqb_neq | apply N.ltb_ge]; lia.
Qed.

Lemma quote_units_step (c d : code_unit) (rest : jsstring) :
  quote_units (c :: d :: rest)
  = if is_leading_surrogate c && is_trailing_surrogate d
    then c :: d :: quote_units rest
    else quote_unit c ++ quote_units (d :: rest).
Proof. reflexivity. Qed.

Lemma read_quote_units (n : nat) : forall (s tail : jsstring),
  (length s <= n)%nat ->
  read_string_body (quote_units s ++ 34 :: tail) = Some (s, tail).
Proof.
  induction n as [|n IH]; intros s tail Hlen.
  - destruct s; [reflexivity | simpl in Hlen; lia].
  - destruct s as [|c [|d rest]]; [reflexivity | |].
    + cbn [quote_units]. rewrite read_quote_unit. reflexivity.
    + rewrite quote_units_step. cbn [length] in Hlen.
      destruct (is_leading_surrogate c && is_trailing_surrogate d) eqn:Hp.
      * apply andb_prop in Hp. destruct Hp as [Hc Hd].
        unfold is_leading_surrogate in Hc.
        unfold is_trailing_surrogate in Hd.
        apply andb_prop in Hc, Hd.
        destruct Hc as [Hc _], Hd as [Hd _].
        apply N.leb_le in Hc, Hd.
        cbn [app]. rewrite (read_surrogate c) by lia.
        rewrite (read_surrogate d) by lia.
        rewrite IH by lia. reflexivity.
      * rewrite <- app_assoc, read_quote_unit.
        rewrite IH by (cbn [length]; lia). reflexivity.
Qed.

Lemma read_QuoteJSONString_tail (s tail : jsstring) :
  read_string_body (quote_units s ++ [34] ++ tail) = Some (s, tail).
Proof. apply (read_quote_units (length s)). lia. Qed.

Lemma read_message_object_stringify (value : jsstring) :
  read_message_object (JSON_stringify_message value) = Some value.
Proof.
  unfold JSON_stringify_message, QuoteJSONString, read_message_object.
  set (key := str "message").
  cbn [app expect mbind option_bind N.eqb Pos.eqb].
  rewrite <- !app_assoc.
  rewrite (read_QuoteJSONString_tail key).
  cbn [app expect mbind option_bind N.eqb Pos.eqb].
  rewrite (read_quote_units (length value) value [125]) by lia.
  reflexivity.
Qed.

(** ** The phases of [sendMessage] *)

(** The conversion of a string is the string: the messages the script
    itself words are always rendered. *)
Lemma appendMessage_VStr s isBot meta st :
  appendMessage (VStr s) isBot meta st = inr (attach s isBot meta st).
Proof. reflexivity. Qed.

Lemma appendMessage_converted text s isBot meta st :
  DOMString_of text = inr s ->
  appendMessage text isBot meta st = inr (attach s isBot meta st).
Proof. intros H. unfold appendMessage. rewrite H. reflexivity. Qed.

Lemma appendMessage_thrown text e isBot meta st :
  DOMString_of text = inl e -> appendMessage text isBot meta st = inl e.
Proof. intros H. unfold appendMessage. rewrite H. reflexivity. Qed.

Lemma onDOMContentLoaded_unfold st :
  onDOMContentLoaded st
  = if Nat.eqb (length (children (messages st))) 0
    then attach greeting_text true (Some greeting_meta) st
    else st.
Proof. reflexivity. Qed.

Lemma messages_attach s isBot meta st :
  messages (attach s isBot meta st)
  = messages st ++ [message_element s isBot].
Proof. destruct meta; reflexivity. Qed.

(** The element the script builds is the node the page shows. *)
Lemma message_element_user s : message_element s false = user_node s.
Proof. destruct s; reflexivity. Qed.

Lemma message_element_bot s : message_element s true = bot_node s.
Proof. destruct s; reflexivity. Qed.

Lemma sendMessage_start_empty st :
  trim (input_value st) = [] -> sendMessage_start st = Return st.
Proof. unfold sendMessage_start. intros ->. reflexivity. Qed.

Lemma sendMessage_start_nonempty st :
  trim (input_value st) <> [] ->
  sendMessage_start st = Await AwaitFetch (at_fetch st).
Proof.
  unfold sendMessage_start, at_fetch. intros H.
  destruct (trim (input_value st)) as [|c v]; [contradiction |].
  reflexivity.
Qed.

Lemma messages_at_fetch st :
  messages (at_fetch st)
  = messages st ++ [message_element (trim (input_value st)) false].
Proof. reflexivity. Qed.

(** The completions of a resumed call, case by case. *)
Lemma sendMessage_fetched_rejected e st :
  sendMessage_fetched (inl e) st
  = Normal (failed e st).
Proof. reflexivity. Qed.

Lemma sendMessage_fetched_not_ok resp st :
  ok resp = false ->
  sendMessage_fetched (inr resp) st
  = Return (showTyping false
      (attach (server_error_text resp) true (Some error_meta) st)).
Proof.
  intros H. unfold sendMessage_fetched, try_after_fetch. rewrite H.
  reflexivity.
Qed.

Lemma sendMessage_fetched_ok resp st :
  ok resp = true ->
  sendMessage_fetched (inr resp) st = Await AwaitJson st.
Proof.
  intros H. unfold sendMessage_fetched, try_after_fetch. rewrite H.
  reflexivity.
Qed.

Lemma sendMessage_parsed_success data botText meta s st :
  botText_of data = inr botText ->
  meta_of data = inr meta ->
  DOMString_of botText = inr s ->
  sendMessage_parsed (inr data) st
  = Normal (showTyping false (attach s true (Some meta) st)).
Proof.
  intros Hb Hm Hs. unfold sendMessage_parsed, try_after_json.
  rewrite Hb, Hm. cbn [bindE].
  rewrite (appendMessage_converted _ _ _ _ _ Hs). reflexivity.
Qed.

(** The conversion of the reply text throws: the [catch] block runs. *)
Lemma sendMessage_parsed_unconvertible data botText meta e st :
  botText_of data = inr botText ->
  meta_of data = inr meta ->
  DOMString_of botText = inl e ->
  sendMessage_parsed (inr data) st = Normal (failed e st).
Proof.
  intros Hb Hm Hs. unfold sendMessage_parsed, try_after_json.
  rewrite Hb, Hm. cbn [bindE].
  rewrite (appendMessage_thrown _ _ _ _ _ Hs). reflexivity.
Qed.

(** A resumed body read concludes in one of two ways: the [catch] block
    ran, or the reply was rendered. *)
Lemma sendMessage_parsed_cases r st :
  (exists e, sendMessage_parsed r st = Normal (failed e st)) \/
  (exists data botText meta s,
      r = inr data /\ botText_of data = inr botText /\
      meta_of data = inr meta /\ DOMString_of botText = inr s /\
      sendMessage_parsed r st
      = Normal (showTyping false (attach s true (Some meta) st))).
Proof.
  destruct r as [e | data].
  - left. exists e. reflexivity.
  - destruct (botText_of data) as [e | botText] eqn:Hb.
    + left. exists e. unfold sendMessage_parsed, try_after_json.
      rewrite Hb. reflexivity.
    + destruct (meta_of data) as [e | meta] eqn:Hm.
      * left. exists e. unfold sendMessage_parsed, try_after_json.
        rewrite Hb, Hm. reflexivity.
      * destruct (DOMString_of botText) as [e | s] eqn:Hs.
        -- left. exists e.
           apply (sendMessage_parsed_unconvertible data botText meta);
             assumption.
        -- right. exists data, botText, meta, s.
           repeat split; try assumption.
           apply (sendMessage_parsed_success data botText); assumption.
Qed.

Lemma sendMessage_unfold st reply :
  trim (input_value st) <> [] ->
  sendMessage st reply
  = match reply with
    | FetchPending => Await AwaitFetch (at_fetch st)
    | FetchRejects e => Normal (failed e (at_fetch st))
    | FetchResolves resp b =>
        if ok resp then
          match b with
          | BodyPending => Await AwaitJson (at_fetch st)
          | BodyRejects e => sendMessage_parsed (inl e) (at_fetch st)
          | BodyResolves data => sendMessage_parsed (inr data) (at_fetch st)
          end
        else
          Return (showTyping false
                    (attach (server_error_text resp) true
                       (Some error_meta) (at_fetch st)))
    end.
Proof.
  intros H. unfold sendMessage.
  rewrite (sendMessage_start_nonempty st H).
  destruct reply as [| e | resp b]; try reflexivity.
  destruct (ok resp) eqn:Hok.
  - rewrite (sendMessage_fetched_ok resp _ Hok). reflexivity.
  - rewrite (sendMessage_fetched_not_ok resp _ Hok). reflexivity.
Qed.

Lemma messages_failed e st :
  messages (failed e st)
  = messages st ++ [message_element network_error_text true].
Proof. reflexivity. Qed.

Lemma two_appended {A : Type} (l : list A) (x y : A) :
  (l ++ [x]) ++ [y] = l ++ [x; y].
Proof. rewrite <- app_assoc. reflexivity. Qed.

Lemma messages_showTyping show st :
  messages (showTyping show st) = messages st.
Proof. reflexivity. Qed.

(** A resumed body read always concludes, with exactly one bot message. *)
Lemma sendMessage_parsed_one_bot r st :
  exists s,
    fulfilled (sendMessage_parsed r st) /\
    messages (state_of (sendMessage_parsed r st))
    = messages st ++ [message_element s true] /\
    (s = network_error_text \/
     exists data v, r = inr data /\ botText_of data = inr v /\
                    DOMString_of v = inr s).
Proof.
  destruct (sendMessage_parsed_cases r st)
    as [[e He] | (data & botText & meta & s & Hd & Hbt & Hm & Hs & He)];
    rewrite He.
  - exists network_error_text. cbn [state_of].
    rewrite messages_failed.
    split; [exact I |]. split; [reflexivity |]. left. reflexivity.
  - exists s. cbn [state_of].
    rewrite messages_showTyping, messages_attach.
    split; [exact I |]. split; [reflexivity |].
    right. exists data, botText. auto.
Qed.

Lemma network_sendMessage_parsed r st :
  network (state_of (sendMessage_parsed r st)) = network st.
Proof.
  destruct (sendMessage_parsed_cases r st)
    as [[e He] | (data & botText & meta & s & _ & _ & _ & _ & He)];
    rewrite He; reflexivity.
Qed.

Lemma typing_hidden_showTyping st : typing_hidden (showTyping false st).
Proof. split; reflexivity. Qed.

Lemma typing_hidden_sendMessage_parsed r st :
  typing_hidden (state_of (sendMessage_parsed r st)).
Proof.
  destruct (sendMessage_parsed_cases r st)
    as [[e He] | (data & botText & meta & s & _ & _ & _ & _ & He)];
    rewrite He; apply typing_hidden_showTyping.
Qed.


Lemma botText_of_not_nullish data :
  nullish data = false -> botText_of data = inr (rendered_reply data).
Proof.
  unfold botText_of, rendered_reply.
  destruct data as [| | b | f | t | items | props];
    try discriminate; intros _; cbn [response_field Get].
  - destruct (truthy (VBool b)) eqn:E; cbn [bindE];
      [reflexivity | rewrite E; reflexivity].
  - destruct (truthy (VNum f)) eqn:E; cbn [bindE];
      [reflexivity | rewrite E; reflexivity].
  - destruct (truthy (VStr t)) eqn:E; cbn [bindE];
      [reflexivity | rewrite E; reflexivity].
  - reflexivity.
  - cbn [truthy].
    destruct (lookup_prop (str "response") props) as [v |]; cbn [bindE];
      [destruct (truthy v) |]; reflexivity.
Qed.


Lemma textContent_message_element s isBot :
  textContent (message_element s isBot) = s.
Proof.
  unfold message_element, set_textContent.
  destruct s as [|c s]; cbn [textContent].
  - reflexivity.
  - rewrite !app_nil_r. reflexivity.
Qed.

(** Every handler and every resumption leaves the messages it found in
    place and adds at the end. *)
Lemma sendMessage_start_extends st :
  messages st `prefix_of` messages (state_of (sendMessage_start st)).
Proof.
  destruct (trim (input_value st)) as [|c v] eqn:E.
  - rewrite (sendMessage_start_empty st E). reflexivity.
  - rewrite sendMessage_start_nonempty by (rewrite E; discriminate).
    cbn [state_of]. rewrite messages_at_fetch. eexists. reflexivity.
Qed.

Lemma sendMessage_fetched_extends r st :
  messages st `prefix_of` messages (state_of (sendMessage_fetched r st)).
Proof.
  destruct r as [e | resp].
  - rewrite sendMessage_fetched_rejected. cbn [state_of].
    rewrite messages_failed. eexists. reflexivity.
  - destruct (ok resp) eqn:Hok.
    + rewrite (sendMessage_fetched_ok resp st Hok). reflexivity.
    + rewrite (sendMessage_fetched_not_ok resp st Hok). cbn [state_of].
      rewrite messages_showTyping, messages_attach.
      eexists. reflexivity.
Qed.

Lemma sendMessage_parsed_extends r st :
  messages st `prefix_of` messages (state_of (sendMessage_parsed r st)).
Proof.
  destruct (sendMessage_parsed_one_bot r st) as (text & _ & -> & _).
  eexists. reflexivity.
Qed.

Lemma onDOMContentLoaded_extends st :
  messages st `prefix_of` messages (onDOMContentLoaded st).
Proof.
  unfold onDOMContentLoaded.
  destruct (Nat.eqb (length (children (messages st))) 0); [| reflexivity].
  rewrite appendMessage_VStr, messages_attach. eexists. reflexivity.
Qed.

Lemma dom_spawn c w : dom (spawn c w) = state_of c.
Proof. destruct c; reflexivity. Qed.

Lemma dom_resume i c w : dom (resume i c w) = state_of c.
Proof. destruct c; reflexivity. Qed.

Lemma step_extends w ev :
  messages (dom w) `prefix_of` messages (dom (step w ev)).
Proof.
  destruct ev as [s | | key shiftKey | | i r | i r]; cbn [step].
  - reflexivity.
  - rewrite dom_spawn. apply sendMessage_start_extends.
  - rewrite dom_spawn. unfold onKeydown.
    destruct (str_eqb key (str "Enter") && negb shiftKey).
    + apply sendMessage_start_extends.
    + reflexivity.
  - apply onDOMContentLoaded_extends.
  - destruct (tasks w !! i) as [[[|] |] |]; try reflexivity.
    rewrite dom_resume. apply sendMessage_fetched_extends.
  - destruct (tasks w !! i) as [[[|] |] |]; try reflexivity.
    rewrite dom_resume. apply sendMessage_parsed_extends.
Qed.

Lemma run_extends evs : forall w,
  messages (dom w) `prefix_of` messages (dom (run w evs)).
Proof.
  induction evs as [|ev evs IH]; intros w; cbn [run fold_left].
  - reflexivity.
  - etransitivity; [apply (step_extends w ev) | apply IH].
Qed.

Lemma run_app w evs1 evs2 :
  run w (evs1 ++ evs2) = run (run w evs1) evs2.
Proof. apply fold_left_app. Qed.

(** ** Overlapping calls

    A task stays as it is until its own promise settles; the step at which
    it concludes hides the indicator and adds exactly one bot message. *)

Lemma tasks_spawn c w i x :
  tasks w !! i = Some x -> tasks (spawn c w) !! i = Some x.
Proof.
  intros H. destruct c; cbn [spawn tasks]; try exact H.
  rewrite lookup_app_l; [exact H |].
  apply (lookup_lt_Some _ _ _ H).
Qed.

Lemma tasks_resume_other j c w i :
  i <> j -> tasks (resume j c w) !! i = tasks w !! i.
Proof.
  intros Hij. destruct c; cbn [resume tasks];
    apply list_lookup_insert_ne; congruence.
Qed.

Lemma tasks_resume_same i c w x :
  tasks w !! i = Some x ->
  tasks (resume i c w) !! i
  = Some (match c with Await f _ => Some f | _ => None end).
Proof.
  intros H. apply lookup_lt_Some in H.
  destruct c; cbn [resume tasks]; apply list_lookup_insert_eq; exact H.
Qed.

Lemma step_concluding w ev i f :
  tasks w !! i = Some (Some f) ->
  tasks (step w ev) !! i = Some None ->
  typing_hidden (dom (step w ev)) /\
  exists text,
    messages (dom (step w ev))
    = messages (dom w) ++ [message_element text true].
Proof.
  intros Hi Hdone.
  destruct ev as [s | | key shiftKey | | j r | j r]; cbn [step] in *.
  - cbn [tasks] in Hdone. congruence.
  - rewrite (tasks_spawn _ w i _ Hi) in Hdone. congruence.
  - rewrite (tasks_spawn _ w i _ Hi) in Hdone. congruence.
  - cbn [tasks] in Hdone. congruence.
  - destruct (tasks w !! j) as [[[|] |] |] eqn:Hj; try congruence.
    destruct (decide (i = j)) as [-> | Hij];
      [| rewrite tasks_resume_other in Hdone by exact Hij; congruence].
    rewrite (tasks_resume_same j _ w _ Hj) in Hdone.
    rewrite dom_resume. destruct r as [e | resp].
    + rewrite sendMessage_fetched_rejected. cbn [state_of].
      split; [apply typing_hidden_showTyping |].
      eexists. apply messages_failed.
    + destruct (ok resp) eqn:Hok.
      * rewrite (sendMessage_fetched_ok resp _ Hok) in Hdone. congruence.
      * rewrite (sendMessage_fetched_not_ok resp _ Hok). cbn [state_of].
        split; [apply typing_hidden_showTyping |].
        eexists. rewrite messages_showTyping. apply messages_attach.
  - destruct (tasks w !! j) as [[[|] |] |] eqn:Hj; try congruence.
    destruct (decide (i = j)) as [-> | Hij];
      [| rewrite tasks_resume_other in Hdone by exact Hij; congruence].
    rewrite dom_resume.
    split; [apply typing_hidden_sendMessage_parsed |].
    destruct (sendMessage_parsed_one_bot r (dom w)) as (text & _ & Hm & _).
    exists text. exact Hm.
Qed.

(** A click on a page whose input is not blank starts a task, at the first
    [await] of a new call. *)
Lemma step_click_starts w :
  trim (input_value (dom w)) <> [] ->
  step w Click = mkWorld (at_fetch (dom w)) (tasks w ++ [Some AwaitFetch]).
Proof.
  intros Hne. cbn [step]. unfold onClick.
  rewrite (sendMessage_start_nonempty _ Hne). reflexivity.
Qed.

(** A step that leaves a task suspended adds no message on its behalf. *)
Lemma step_still_pending w i r :
  tasks w !! i = Some (Some AwaitFetch) ->
  tasks (step w (FetchSettled i r)) !! i = Some (Some AwaitJson) ->
  dom (step w (FetchSettled i r)) = dom w.
Proof.
  intros Hi Hnext. cbn [step] in *. rewrite Hi in *.
  rewrite (tasks_resume_same i _ w _ Hi) in Hnext.
  rewrite dom_resume. destruct r as [e | resp].
  - rewrite sendMessage_fetched_rejected in Hnext. congruence.
  - destruct (ok resp) eqn:Hok.
    + rewrite (sendMessage_fetched_ok resp _ Hok). reflexivity.
    + rewrite (sendMessage_fetched_not_ok resp _ Hok) in Hnext. congruence.
Qed.

(** ** Counting messages and calls *)

Lemma count_class_app cls (l1 l2 : list Node) :
  count_class cls (l1 ++ l2)
  = (count_class cls l1 + count_class cls l2)%nat.
Proof. unfold count_class. rewrite List.filter_app. apply length_app. Qed.

Lemma concluded_count_app (l1 l2 : list (option Frame)) :
  concluded_count (l1 ++ l2)
  = (concluded_count l1 + concluded_count l2)%nat.
Proof.
  unfold concluded_count. rewrite List.filter_app. apply length_app.
Qed.

Lemma concluded_count_cons t (ts : list (option Frame)) :
  concluded_count (t :: ts)
  = ((if is_concluded t then 1 else 0) + concluded_count ts)%nat.
Proof. unfold concluded_count. cbn [List.filter]. destruct t; reflexivity. Qed.

(** A call that moves on keeps the count of concluded calls; a call that
    concludes adds one. *)
Lemma concluded_count_insert (ts : list (option Frame)) :
  forall i f t,
    ts !! i = Some (Some f) ->
    concluded_count (<[i := t]> ts)
    = ((if is_concluded t then 1 else 0) + concluded_count ts)%nat.
Proof.
  induction ts as [|x ts IH]; intros i f t Hi; [discriminate |].
  destruct i as [|i]; cbn in Hi.
  - injection Hi as ->.
    change (<[0%nat := t]> (Some f :: ts)) with (t :: ts).
    rewrite !concluded_count_cons. cbn [is_concluded]. lia.
  - change (<[S i := t]> (x :: ts)) with (x :: <[i := t]> ts).
    rewrite !concluded_count_cons, (IH i f t Hi). lia.
Qed.

Lemma count_user_message s isBot :
  count_class (str "message user") [message_element s isBot]
  = if isBot then 0%nat else 1%nat.
Proof. destruct isBot; reflexivity. Qed.

Lemma count_bot_message s isBot :
  count_class (str "message bot") [message_element s isBot]
  = if isBot then 1%nat else 0%nat.
Proof. destruct isBot; reflexivity. Qed.

(** What one event does to the view and to the calls: nothing; a call
    starts and its user message is added; a call moves from the response to
    the body read; or a call concludes and one bot message is added. *)
Lemma step_cases w ev :
  ev <> DOMContentLoaded ->
  (messages (dom (step w ev)) = messages (dom w) /\
   tasks (step w ev) = tasks w) \/
  (trim (input_value (dom w)) <> [] /\
   messages (dom (step w ev))
   = messages (dom w)
     ++ [message_element (trim (input_value (dom w))) false] /\
   tasks (step w ev) = tasks w ++ [Some AwaitFetch]) \/
  (exists i,
      tasks w !! i = Some (Some AwaitFetch) /\
      messages (dom (step w ev)) = messages (dom w) /\
      tasks (step w ev) = <[i := Some AwaitJson]> (tasks w)) \/
  (exists i f s,
      tasks w !! i = Some (Some f) /\
      messages (dom (step w ev))
      = messages (dom w) ++ [message_element s true] /\
      tasks (step w ev) = <[i := None]> (tasks w)).
Proof.
  intros Hev.
  assert (Hsub :
    (messages (dom (spawn (sendMessage_start (dom w)) w))
     = messages (dom w) /\
     tasks (spawn (sendMessage_start (dom w)) w) = tasks w) \/
    (trim (input_value (dom w)) <> [] /\
     messages (dom (spawn (sendMessage_start (dom w)) w))
     = messages (dom w)
       ++ [message_element (trim (input_value (dom w))) false] /\
     tasks (spawn (sendMessage_start (dom w)) w)
     = tasks w ++ [Some AwaitFetch])).
  { destruct (trim (input_value (dom w))) as [|c v] eqn:E.
    - rewrite (sendMessage_start_empty _ E). left. split; reflexivity.
    - right. split; [discriminate |].
      rewrite sendMessage_start_nonempty by (rewrite E; discriminate).
      cbn [spawn dom tasks]. rewrite messages_at_fetch, E.
      split; reflexivity. }
  destruct ev as [s | | key shiftKey | | i r | i r]; cbn [step].
  - left. split; reflexivity.
  - destruct Hsub as [H | H]; [left | right; left]; exact H.
  - unfold onKeydown.
    destruct (str_eqb key (str "Enter") && negb shiftKey).
    + destruct Hsub as [H | H]; [left | right; left]; exact H.
    + left. split; reflexivity.
  - contradiction.
  - destruct (tasks w !! i) as [[[|] |] |] eqn:Hi;
      try (left; split; reflexivity).
    destruct r as [e | resp].
    + right. right. right. exists i, AwaitFetch, network_error_text.
      rewrite sendMessage_fetched_rejected.
      split; [exact Hi |]. split; reflexivity.
    + destruct (ok resp) eqn:Hok.
      * right. right. left. exists i.
        rewrite (sendMessage_fetched_ok resp _ Hok).
        split; [exact Hi |]. split; reflexivity.
      * right. right. right. exists i, AwaitFetch, (server_error_text resp).
        rewrite (sendMessage_fetched_not_ok resp _ Hok).
        split; [exact Hi |]. split; [| reflexivity].
        rewrite dom_resume. cbn [state_of].
        rewrite messages_showTyping. apply messages_attach.
  - destruct (tasks w !! i) as [[[|] |] |] eqn:Hi;
      try (left; split; reflexivity).
    right. right. right.
    destruct (sendMessage_parsed_cases r (dom w))
      as [[e He] | (data & botText & meta & s & _ & _ & _ & _ & He)];
      rewrite He.
    + exists i, AwaitJson, network_error_text.
      split; [exact Hi |]. split; reflexivity.
    + exists i, AwaitJson, s. split; [exact Hi |]. split; [| reflexivity].
      rewrite dom_resume. cbn [state_of].
      rewrite messages_showTyping. apply messages_attach.
Qed.

Lemma step_counts w ev :
  ev <> DOMContentLoaded ->
  (count_class (str "message user") (messages (dom (step w ev)))
   + length (tasks w)
   = count_class (str "message user") (messages (dom w))
     + length (tasks (step w ev)))%nat /\
  (count_class (str "message bot") (messages (dom (step w ev)))
   + concluded_count (tasks w)
   = count_class (str "message bot") (messages (dom w))
     + concluded_count (tasks (step w ev)))%nat.
Proof.
  intros Hev.
  destruct (step_cases w ev Hev)
    as [[Hm Ht] | [(_ & Hm & Ht) | [(i & Hi & Hm & Ht)
                                   | (i & f & s & Hi & Hm & Ht)]]];
    rewrite Hm, Ht.
  - split; reflexivity.
  - rewrite !count_class_app, count_user_message, count_bot_message,
      concluded_count_app, length_app.
    cbn [length]. change (concluded_count [Some AwaitFetch]) with 0%nat.
    split; lia.
  - rewrite length_insert, (concluded_count_insert _ i _ _ Hi).
    cbn [is_concluded]. split; lia.
  - rewrite !count_class_app, count_user_message, count_bot_message,
      length_insert, (concluded_count_insert _ i _ _ Hi).
    cbn [is_concluded]. split; lia.
Qed.

Lemma run_counts evs : forall w,
  Forall (fun ev => ev <> DOMContentLoaded) evs ->
  (count_class (str "message user") (messages (dom (run w evs)))
   + length (tasks w)
   = count_class (str "message user") (messages (dom w))
     + length (tasks (run w evs)))%nat /\
  (count_class (str "message bot") (messages (dom (run w evs)))
   + concluded_count (tasks w)
   = count_class (str "message bot") (messages (dom w))
     + concluded_count (tasks (run w evs)))%nat.
Proof.
  induction evs as [|ev evs IH]; intros w Hevs; cbn [run fold_left].
  - split; reflexivity.
  - inversion Hevs as [|? ? Hev Hrest]; subst.
    destruct (step_counts w ev Hev) as [H1 H2].
    destruct (IH (step w ev) Hrest) as [H3 H4].
    unfold run in *. split; lia.
Qed.

(** ** The send flow *)

Lemma message_element_user_nonempty s :
  s <> [] ->
  message_element s false
  = Element (str "message user") [Element (str "bubble user") [Text s]].
Proof. destruct s; [contradiction | reflexivity]. Qed.

Lemma textContent_shown cls cls' (s : jsstring) :
  textContent (Element cls [Element cls' [Text s]]) = s.
Proof. cbn [textContent]. rewrite !app_nil_r. reflexivity. Qed.

(** C1: a submit whose input is not empty after trimming, answered by a
    reply under which the call concludes, appends exactly the user message
    (a wrapper and a bubble of class [user] holding the trimmed text) and
    then exactly one bot message (wrapper and bubble of class [bot]), whose
    text is the network-error text, the server-error text or the converted
    reply; the call finishes without an exception.  With overlapping calls
    the same count holds over every run of events after the page has
    loaded: the view gains one user message for each call started and one
    bot message for each call concluded. *)
Theorem send_appends_user_then_one_bot st reply :
  trim (input_value st) <> [] ->
  concludes reply ->
  fulfilled (sendMessage st reply) /\
  (exists s,
    messages (state_of (sendMessage st reply))
    = messages st
      ++ [Element (str "message user")
            [Element (str "bubble user") [Text (trim (input_value st))]];
          bot_node s] /\
    (s = str "Network error: failed to reach the server." \/
     (exists resp b, reply = FetchResolves resp b /\ ok resp = false /\
                     s = str "Server error (" ++ decimal (status resp)
                           ++ str ")") \/
     (exists resp data v,
         reply = FetchResolves resp (BodyResolves data) /\
         ok resp = true /\ botText_of data = inr v /\
         DOMString_of v = inr s))) /\
  (forall w evs,
      Forall (fun ev => ev <> DOMContentLoaded) evs ->
      (count_class (str "message user") (messages (dom (run w evs)))
       + length (tasks w)
       = count_class (str "message user") (messages (dom w))
         + length (tasks (run w evs)))%nat /\
      (count_class (str "message bot") (messages (dom (run w evs)))
       + concluded_count (tasks w)
       = count_class (str "message bot") (messages (dom w))
         + concluded_count (tasks (run w evs)))%nat).
Proof.
  intros Hne Hc.
  assert (Hshape : forall st' s,
    messages st' = messages (at_fetch st) ++ [message_element s true] ->
    messages st'
    = messages st
      ++ [Element (str "message user")
            [Element (str "bubble user") [Text (trim (input_value st))]];
          bot_node s]).
  { intros st' s ->.
    rewrite messages_at_fetch, two_appended,
      (message_element_user_nonempty _ Hne), message_element_bot.
    reflexivity. }
  split; [| split; [| intros w evs; apply run_counts]];
    rewrite (sendMessage_unfold st reply Hne);
    destruct reply as [| e | resp b]; cbn [concludes] in Hc;
    try contradiction.
  - exact I.
  - destruct (ok resp) eqn:Hok; [| exact I].
    destruct Hc as [Hc | Hb]; [discriminate |].
    destruct b as [| e | data]; [contradiction | |].
    + destruct (sendMessage_parsed_one_bot (inl e) (at_fetch st))
        as (s & Hf & _). exact Hf.
    + destruct (sendMessage_parsed_one_bot (inr data) (at_fetch st))
        as (s & Hf & _). exact Hf.
  - exists network_error_text. split; [| left; reflexivity].
    apply Hshape. apply messages_failed.
  - destruct (ok resp) eqn:Hok.
    + destruct Hc as [Hc | Hb]; [discriminate |].
      destruct b as [| e | data]; [contradiction | |].
      * destruct (sendMessage_parsed_one_bot (inl e) (at_fetch st))
          as (s & _ & Hm & [-> | (d & v & Hd & _)]); [| discriminate].
        exists network_error_text. split; [| left; reflexivity].
        apply Hshape, Hm.
      * destruct (sendMessage_parsed_one_bot (inr data) (at_fetch st))
          as (s & _ & Hm & Hs).
        exists s. split; [apply Hshape, Hm |].
        destruct Hs as [-> | (d & v & Hd & Hbt & Hv)];
          [left; reflexivity |].
        injection Hd as <-. right. right. exists resp, data, v. auto.
    + exists (server_error_text resp). split.
      * apply Hshape. cbn [state_of].
        rewrite messages_showTyping. apply messages_attach.
      * right. left. exists resp, b. auto.
Qed.

(** C2: when the input is empty or holds white space only, the submit does
    nothing: the state is returned as it was, so no message is appended and
    no request is issued, whatever the network would have answered. *)
Theorem send_blank_is_noop st reply :
  Forall (fun c => is_white_space c = true) (input_value st) ->
  sendMessage st reply = Return st /\
  messages (state_of (sendMessage st reply)) = messages st /\
  network (state_of (sendMessage st reply)) = network st.
Proof.
  intros H. apply trim_nil_iff in H.
  assert (E : sendMessage st reply = Return st).
  { unfold sendMessage. rewrite (sendMessage_start_empty st H).
    reflexivity. }
  rewrite E. auto.
Qed.


(** C4: a response whose status is outside 200..299 renders exactly one bot
    message (wrapper and bubble of class [bot]) with the text
    [Server error (<status>)], which contains the decimal status, and logs
    it with intent [error] and confidence [0]; the call returns, and the
    body plays no part. *)
Theorem server_error_renders_status st resp b :
  trim (input_value st) <> [] ->
  ok resp = false ->
  (exists st',
      sendMessage st (FetchResolves resp b) = Return st' /\
      messages st'
      = messages st
        ++ [Element (str "message user")
              [Element (str "bubble user") [Text (trim (input_value st))]];
            Element (str "message bot")
              [Element (str "bubble bot")
                 [Text (str "Server error (" ++ decimal (status resp)
                          ++ str ")")]]] /\
      console st'
      = console st
        ++ [ConsoleLog [VStr (str "Intent:"); VStr (str "error");
                        VStr (str "Confidence:"); VNum 0%float]]) /\
  contains (decimal (status resp))
    (textContent
       (Element (str "message bot")
          [Element (str "bubble bot")
             [Text (str "Server error (" ++ decimal (status resp)
                      ++ str ")")]])) /\
  forall b', sendMessage st (FetchResolves resp b')
             = sendMessage st (FetchResolves resp b).
Proof.
  intros Hne Hok.
  assert (E : forall b0,
    sendMessage st (FetchResolves resp b0)
    = Return (showTyping false
        (attach (server_error_text resp) true (Some error_meta)
           (at_fetch st)))).
  { intros b0. rewrite (sendMessage_unfold st _ Hne), Hok. reflexivity. }
  split; [| split].
  - eexists. split; [apply E |]. split.
    + rewrite messages_showTyping, messages_attach, messages_at_fetch,
        two_appended, (message_element_user_nonempty _ Hne).
      reflexivity.
    + reflexivity.
  - rewrite textContent_shown.
    exists (str "Server error ("), (str ")"). reflexivity.
  - intros b'. rewrite !E. reflexivity.
Qed.

(** C5: when [fetch] rejects, exactly one bot message (wrapper and bubble
    of class [bot]) is rendered, with the fixed network-error text; it is
    logged with intent [error] and confidence [0], and the exception goes
    to [console.error]; the call finishes normally, and no reply makes
    [sendMessage] end in an exception. *)
Theorem network_failure_renders_fixed_text st e :
  trim (input_value st) <> [] ->
  (exists st' bot,
      sendMessage st (FetchRejects e) = Normal st' /\
      messages st'
      = messages st
        ++ [Element (str "message user")
              [Element (str "bubble user") [Text (trim (input_value st))]];
            bot] /\
      bot = Element (str "message bot")
              [Element (str "bubble bot")
                 [Text (str "Network error: failed to reach the server.")]]
      /\
      textContent bot = str "Network error: failed to reach the server." /\
      console st'
      = console st
        ++ [ConsoleLog [VStr (str "Intent:"); VStr (str "error");
                        VStr (str "Confidence:"); VNum 0%float];
            ConsoleError (str "Chat send error:") e]) /\
  forall reply e' st', sendMessage st reply <> Throw e' st'.
Proof.
  intros Hne. split.
  - exists (failed e (at_fetch st)),
      (message_element network_error_text true).
    split; [rewrite (sendMessage_unfold st _ Hne); reflexivity |].
    split; [| split; [reflexivity | split]].
    + rewrite messages_failed, messages_at_fetch, two_appended,
        (message_element_user_nonempty _ Hne).
      reflexivity.
    + apply (textContent_message_element network_error_text true).
    + unfold failed. cbn. rewrite <- app_assoc. reflexivity.
  - intros reply e' st'. rewrite (sendMessage_unfold st _ Hne).
    destruct reply as [| e0 | resp b]; try discriminate.
    destruct (ok resp); [| discriminate].
    destruct b as [| e0 | data]; try discriminate.
    destruct (sendMessage_parsed_cases (inr data) (at_fetch st))
      as [[e1 He] | (d & botText & meta & s & _ & _ & _ & _ & He)];
      rewrite He; discriminate.
Qed.

(** C6: a submit of non-empty input shows the typing indicator when the
    call reaches its first [await]; the indicator is hidden when the call
    concludes, under every reply and, for overlapping calls, whenever a
    resumed call finishes from whatever state it is resumed in: the step
    of the event loop at which a task concludes leaves it hidden. *)
Theorem typing_indicator_shown_then_hidden st :
  trim (input_value st) <> [] ->
  (exists st1, sendMessage_start st = Await AwaitFetch st1 /\
               typing_visible st1) /\
  (forall reply, concludes reply ->
                 typing_hidden (state_of (sendMessage st reply))) /\
  (forall r st', match sendMessage_fetched r st' with
                 | Await _ _ => exists resp, r = inr resp /\ ok resp = true
                 | c => typing_hidden (state_of c)
                 end) /\
  (forall r st', fulfilled (sendMessage_parsed r st') /\
                 typing_hidden (state_of (sendMessage_parsed r st'))) /\
  (forall w ev i f,
      tasks w !! i = Some (Some f) ->
      tasks (step w ev) !! i = Some None ->
      typing_hidden (dom (step w ev))).
Proof.
  intros Hne. split; [| split; [| split; [| split]]].
  - exists (at_fetch st). split.
    + apply sendMessage_start_nonempty, Hne.
    + split; reflexivity.
  - intros reply Hc. rewrite (sendMessage_unfold st reply Hne).
    destruct reply as [| e | resp b]; simpl in Hc.
    + contradiction.
    + apply typing_hidden_showTyping.
    + destruct (ok resp) eqn:Hok.
      * destruct Hc as [Hc | Hb]; [discriminate |].
        destruct b as [| e | data]; [contradiction | |];
          apply typing_hidden_sendMessage_parsed.
      * apply typing_hidden_showTyping.
  - intros r st'. destruct r as [e | resp].
    + rewrite sendMessage_fetched_rejected. apply typing_hidden_showTyping.
    + destruct (ok resp) eqn:Hok.
      * rewrite (sendMessage_fetched_ok resp st' Hok). eauto.
      * rewrite (sendMessage_fetched_not_ok resp st' Hok).
        apply typing_hidden_showTyping.
  - intros r st'. split.
    + destruct (sendMessage_parsed_one_bot r st') as (text & Hf & _).
      exact Hf.
    + apply typing_hidden_sendMessage_parsed.
  - intros w ev i f Hi Hdone.
    exact (proj1 (step_concluding w ev i f Hi Hdone)).
Qed.

(** C7: on [DOMContentLoaded], a message view with no child element
    receives exactly one greeting bot message (wrapper and bubble of class
    [bot], holding the fixed greeting), logged with intent [greeting] and
    confidence [1]; a view that already has a child element is left as it
    is. *)
Theorem welcome_only_in_empty_view st :
  match children (messages st) with
  | [] =>
      exists greeting,
        greeting
        = Element (str "message bot")
            [Element (str "bubble bot")
               [Text (str "Hi, I'm the Vibeathon bot! You can ask me about joining or registration, event dates and costs, collaborations, social media, GitHub, contact info, current projects, or even provide feedback.")]] /\
        messages (onDOMContentLoaded st) = messages st ++ [greeting] /\
        children (messages (onDOMContentLoaded st)) = [greeting] /\
        console (onDOMContentLoaded st)
        = console st
          ++ [ConsoleLog [VStr (str "Intent:"); VStr (str "greeting");
                          VStr (str "Confidence:"); VNum 1%float]]
  | _ :: _ => onDOMContentLoaded st = st
  end.
Proof.
  unfold onDOMContentLoaded.
  destruct (children (messages st)) as [|m ms] eqn:E; cbn [length Nat.eqb].
  - eexists. split; [reflexivity |].
    rewrite appendMessage_VStr, messages_attach.
    split; [reflexivity |]. split; [| reflexivity].
    unfold children in *. rewrite filter_app, E. reflexivity.
  - reflexivity.
Qed.

(** C8: a submit of non-empty input issues exactly one request, whatever
    the reply: a POST to [/chat] whose body is the JSON text of an object
    with the single property [message], holding the trimmed input: a reader
    of JSON gets the trimmed input back from it. *)
Theorem send_issues_one_post st reply :
  trim (input_value st) <> [] ->
  network (state_of (sendMessage st reply))
  = network st
    ++ [mkRequest (str "/chat") (str "POST")
          [(str "Content-Type", str "application/json")]
          (JSON_stringify_message (trim (input_value st)))] /\
  read_message_object (JSON_stringify_message (trim (input_value st)))
  = Some (trim (input_value st)).
Proof.
  intros Hne. split; [| apply read_message_object_stringify].
  rewrite (sendMessage_unfold st reply Hne).
  destruct reply as [| e | resp b]; try reflexivity.
  destruct (ok resp); [| reflexivity].
  destruct b as [| e | data]; try reflexivity;
    rewrite network_sendMessage_parsed; reflexivity.
Qed.

(** C9: the message view is append-only.  A call of [appendMessage] that
    returns has added its element, of the class of the sender and holding
    the converted text, at the end; every event of the controller leaves
    the messages shown before it as a prefix of the messages shown after
    it; and so does every continuation of a run of events. *)
Theorem message_view_append_only :
  (forall text isBot meta st st',
      appendMessage text isBot meta st = inr st' ->
      exists s,
        DOMString_of text = inr s /\
        messages st'
        = messages st ++ [if isBot then bot_node s else user_node s]) /\
  (forall w ev, messages (dom w) `prefix_of` messages (dom (step w ev))) /\
  (forall w evs1 evs2,
      messages (dom (run w evs1))
      `prefix_of` messages (dom (run w (evs1 ++ evs2)))).
Proof.
  split; [| split].
  - intros text isBot meta st st'. unfold appendMessage.
    destruct (DOMString_of text) as [e | s]; [discriminate |].
    intros H. injection H as <-. exists s. split; [reflexivity |].
    rewrite messages_attach.
    destruct isBot;
      [rewrite message_element_bot | rewrite message_element_user];
      reflexivity.
  - apply step_extends.
  - intros w evs1 evs2. rewrite run_app. apply run_extends.
Qed.

(** C10: when a 2xx response has a body that fails to parse, the [catch]
    block runs: the bot message (wrapper and bubble of class [bot]) shows
    the fixed network-error text, and not the fallback text; it is logged
    with intent [error] and confidence [0], and the exception goes to
    [console.error]. *)
Theorem unparsable_body_renders_network_error st resp e :
  trim (input_value st) <> [] ->
  ok resp = true ->
  exists st' bot,
    sendMessage st (FetchResolves resp (BodyRejects e)) = Normal st' /\
    messages st'
    = messages st
      ++ [Element (str "message user")
            [Element (str "bubble user") [Text (trim (input_value st))]];
          bot] /\
    bot = Element (str "message bot")
            [Element (str "bubble bot")
               [Text (str "Network error: failed to reach the server.")]] /\
    textContent bot = str "Network error: failed to reach the server." /\
    textContent bot <> str "I'm sorry, I couldn't process that." /\
    console st'
    = console st
      ++ [ConsoleLog [VStr (str "Intent:"); VStr (str "error");
                      VStr (str "Confidence:"); VNum 0%float];
          ConsoleError (str "Chat send error:") e].
Proof.
  intros Hne Hok.
  exists (failed e (at_fetch st)),
    (message_element network_error_text true).
  split.
  { rewrite (sendMessage_unfold st _ Hne), Hok. reflexivity. }
  split; [| split; [reflexivity | split; [| split]]].
  - rewrite messages_failed, messages_at_fetch, two_appended,
      (message_element_user_nonempty _ Hne).
    reflexivity.
  - apply (textContent_message_element network_error_text true).
  - rewrite textContent_message_element. discriminate.
  - unfold failed. cbn. rewrite <- app_assoc. reflexivity.
Qed.

(** ** Further properties of the controller *)

Lemma trimStart_split (s : jsstring) :
  exists pre, s = pre ++ trimStart s /\
              Forall (fun c => is_white_space c = true) pre.
Proof.
  induction s as [|c s (pre & Hs & Hpre)]; cbn [trimStart].
  - exists []. split; [reflexivity | constructor].
  - destruct (is_white_space c) eqn:Hc.
    + exists (c :: pre). split.
      * cbn [app]. rewrite <- Hs. reflexivity.
      * constructor; assumption.
    + exists []. split; [reflexivity | constructor].
Qed.

Lemma trimEnd_split (s : jsstring) :
  exists post, s = trimEnd s ++ post /\
               Forall (fun c => is_white_space c = true) post.
Proof.
  destruct (trimStart_split (rev s)) as (pre & Hs & Hpre).
  exists (rev pre). split.
  - unfold trimEnd. rewrite <- rev_app_distr, <- Hs.
    symmetry. apply rev_involutive.
  - apply Forall_rev, Hpre.
Qed.

(** X1: the text a submit echoes and sends is the input without its outer
    white space: the input is white space, then the trimmed text, then
    white space, and the trimmed text neither starts nor ends with a
    white-space unit. *)
Theorem trimmed_input_is_the_core st :
  exists pre post,
    input_value st = pre ++ trim (input_value st) ++ post /\
    Forall (fun c => is_white_space c = true) pre /\
    Forall (fun c => is_white_space c = true) post /\
    (forall c r, trim (input_value st) = c :: r ->
                 is_white_space c = false) /\
    (forall c r, trim (input_value st) = r ++ [c] ->
                 is_white_space c = false).
Proof.
  set (s := input_value st).
  destruct (trimStart_split s) as (pre & Hs & Hpre).
  destruct (trimEnd_split (trimStart s)) as (post & Ht & Hpost).
  exists pre, post. unfold trim.
  split; [rewrite <- Ht; exact Hs |].
  split; [exact Hpre |]. split; [exact Hpost |]. split.
  - intros c r Hcr. rewrite Hcr in Ht.
    apply (trimStart_head s c (r ++ post)). exact Ht.
  - intros c r Hcr.
    apply (trimStart_head (rev (trimStart s)) c (rev r)).
    unfold trimEnd in Hcr.
    apply (f_equal (@rev _)) in Hcr.
    rewrite rev_involutive, rev_app_distr in Hcr. exact Hcr.
Qed.

Lemma input_sendMessage_parsed r st :
  input_value (state_of (sendMessage_parsed r st)) = input_value st /\
  input_focused (state_of (sendMessage_parsed r st)) = input_focused st.
Proof.
  destruct (sendMessage_parsed_cases r st)
    as [[e He] | (data & botText & meta & s & _ & _ & _ & _ & He)];
    rewrite He; split; reflexivity.
Qed.

(** X2: after a submit of non-blank input the input field is empty and
    focused, whatever the backend answers and also while the request is
    still pending; a failure does not put the text back. *)
Theorem send_clears_and_focuses_input st reply :
  trim (input_value st) <> [] ->
  input_value (state_of (sendMessage st reply)) = [] /\
  input_focused (state_of (sendMessage st reply)) = true.
Proof.
  intros Hne. rewrite (sendMessage_unfold st reply Hne).
  destruct reply as [| e | resp b]; try (split; reflexivity).
  destruct (ok resp); [| split; reflexivity].
  destruct b as [| e | data]; try (split; reflexivity);
    apply input_sendMessage_parsed.
Qed.

Lemma Get_own_field data k :
  nullish data = false ->
  Get data k = inr (match own_field k data with
                    | Some v => v
                    | None => VUndefined
                    end).
Proof.
  destruct data as [| | b | f | t | items | props]; cbn [nullish];
    try discriminate; intros _; try reflexivity.
  cbn [Get own_field]. destruct (lookup_prop k props); reflexivity.
Qed.

Lemma meta_of_fields data :
  nullish data = false ->
  meta_of data
  = inr (mkMeta (field_or (str "intent") data (VStr (str "unknown")))
                (field_or (str "confidence") data (VNum 0%float))).
Proof.
  intros H. unfold meta_of, field_or.
  rewrite !(Get_own_field data _ H). cbn [bindE].
  destruct (own_field (str "intent") data),
           (own_field (str "confidence") data); reflexivity.
Qed.

(** X4: what a 2xx response with a body that is not [null] logs.  When the
    reply text is converted and rendered, exactly one console entry is
    added, with the intent and the confidence of the body, a missing or
    falsy [intent] logged as [unknown] and a missing or falsy [confidence]
    as [0].  When the conversion throws, the reply's meta is not logged:
    the [catch] block logs the error meta and passes the exception to
    [console.error]. *)
Theorem reply_logs_intent_and_confidence st resp data :
  trim (input_value st) <> [] ->
  ok resp = true ->
  nullish data = false ->
  match DOMString_of (rendered_reply data) with
  | inr _ =>
      console (state_of (sendMessage st
                           (FetchResolves resp (BodyResolves data))))
      = console st
        ++ [ConsoleLog
              [VStr (str "Intent:");
               match own_field (str "intent") data with
               | Some v => if truthy v then v else VStr (str "unknown")
               | None => VStr (str "unknown")
               end;
               VStr (str "Confidence:");
               match own_field (str "confidence") data with
               | Some v => if truthy v then v else VNum 0%float
               | None => VNum 0%float
               end]]
  | inl e =>
      console (state_of (sendMessage st
                           (FetchResolves resp (BodyResolves data))))
      = console st
        ++ [ConsoleLog [VStr (str "Intent:"); VStr (str "error");
                        VStr (str "Confidence:"); VNum 0%float];
            ConsoleError (str "Chat send error:") e]
  end.
Proof.
  intros Hne Hok Hnn. rewrite (sendMessage_unfold st _ Hne), Hok.
  destruct (DOMString_of (rendered_reply data)) as [e | s] eqn:Hs.
  - rewrite (sendMessage_parsed_unconvertible data _ _ e (at_fetch st)
               (botText_of_not_nullish data Hnn) (meta_of_fields data Hnn)
               Hs).
    cbn [state_of]. unfold failed. cbn. rewrite <- app_assoc. reflexivity.
  - rewrite (sendMessage_parsed_success data _ _ s (at_fetch st)
               (botText_of_not_nullish data Hnn) (meta_of_fields data Hnn)
               Hs).
    reflexivity.
Qed.

(** X5: what the failure paths log.  A status outside 200..299 logs the
    error meta and nothing through [console.error]; a rejected [fetch] and
    a body that fails to parse log the error meta and then one
    [console.error] entry that carries the exception. *)
Theorem failure_paths_log st resp b e :
  trim (input_value st) <> [] ->
  (ok resp = false ->
   console (state_of (sendMessage st (FetchResolves resp b)))
   = console st
     ++ [ConsoleLog [VStr (str "Intent:"); VStr (str "error");
                     VStr (str "Confidence:"); VNum 0%float]]) /\
  console (state_of (sendMessage st (FetchRejects e)))
  = console st
    ++ [ConsoleLog [VStr (str "Intent:"); VStr (str "error");
                    VStr (str "Confidence:"); VNum 0%float];
        ConsoleError (str "Chat send error:") e] /\
  (ok resp = true ->
   console (state_of (sendMessage st (FetchResolves resp (BodyRejects e))))
   = console st
     ++ [ConsoleLog [VStr (str "Intent:"); VStr (str "error");
                     VStr (str "Confidence:"); VNum 0%float];
         ConsoleError (str "Chat send error:") e]).
Proof.
  intros Hne. split; [| split].
  - intros Hok. rewrite (sendMessage_unfold st _ Hne), Hok. reflexivity.
  - rewrite (sendMessage_unfold st _ Hne). cbn [state_of].
    unfold failed. cbn. rewrite <- app_assoc. reflexivity.
  - intros Hok. rewrite (sendMessage_unfold st _ Hne), Hok.
    change (sendMessage_parsed (inl e) (at_fetch st))
      with (Normal (failed e (at_fetch st))).
    cbn [state_of]. unfold failed. cbn. rewrite <- app_assoc. reflexivity.
Qed.

(** X6: a 2xx response whose body is JSON [null] ends in the [catch]
    block: line 58 reads [data.intent] of [null], so the one bot message
    shows the network-error text, and [console.error] receives the
    [TypeError] of that read, after the log of the error meta. *)
Theorem null_body_is_caught st resp :
  trim (input_value st) <> [] ->
  ok resp = true ->
  exists st' bot,
    sendMessage st (FetchResolves resp (BodyResolves VNull)) = Normal st' /\
    messages st'
    = messages st
      ++ [Element (str "message user")
            [Element (str "bubble user") [Text (trim (input_value st))]];
          bot] /\
    bot = Element (str "message bot")
            [Element (str "bubble bot")
               [Text (str "Network error: failed to reach the server.")]] /\
    textContent bot = str "Network error: failed to reach the server." /\
    console st'
    = console st
      ++ [ConsoleLog [VStr (str "Intent:"); VStr (str "error");
                      VStr (str "Confidence:"); VNum 0%float];
          ConsoleError (str "Chat send error:")
            (TypeErrorNullish (str "intent"))].
Proof.
  intros Hne Hok.
  exists (failed (TypeErrorNullish (str "intent")) (at_fetch st)),
    (message_element network_error_text true).
  split.
  { rewrite (sendMessage_unfold st _ Hne), Hok. reflexivity. }
  split; [| split; [reflexivity | split]].
  - rewrite messages_failed, messages_at_fetch, two_appended,
      (message_element_user_nonempty _ Hne).
    reflexivity.
  - apply (textContent_message_element network_error_text true).
  - unfold failed. cbn. rewrite <- app_assoc. reflexivity.
Qed.


Lemma str_eqb_eq (a : jsstring) : forall b, str_eqb a b = true <-> a = b.
Proof.
  induction a as [|x a IH]; intros [|y b]; cbn [str_eqb];
    try (split; [discriminate | discriminate]).
  - split; reflexivity.
  - rewrite andb_true_iff, N.eqb_eq, IH. split.
    + intros [-> ->]. reflexivity.
    + intros H. injection H as -> ->. split; reflexivity.
Qed.

Lemma world_eta w : mkWorld (dom w) (tasks w) = w.
Proof. destruct w. reflexivity. Qed.

Lemma step_submit_is_click w ev :
  submit_event ev = true -> step w ev = step w Click.
Proof.
  destruct ev as [s | | key shiftKey | | i r | i r]; cbn [submit_event];
    try discriminate; intros H; [reflexivity |].
  cbn [step]. unfold onKeydown, onClick. rewrite H. reflexivity.
Qed.

(** X7: the keydown handler submits exactly on Enter without Shift, where
    it does what the click handler does; every other key, and Enter with
    Shift, leaves the page as it is. *)
Theorem keydown_submits_on_plain_enter w key shiftKey :
  (key = str "Enter" /\ shiftKey = false ->
   step w (Keydown key shiftKey) = step w Click) /\
  (key <> str "Enter" \/ shiftKey = true ->
   step w (Keydown key shiftKey) = w).
Proof.
  split.
  - intros [-> ->]. reflexivity.
  - intros H. cbn [step]. unfold onKeydown.
    replace (str_eqb key (str "Enter") && negb shiftKey) with false.
    + apply world_eta.
    + symmetry. apply andb_false_iff. destruct H as [Hk | ->].
      * left. destruct (str_eqb key (str "Enter")) eqn:E;
          [| reflexivity].
        apply str_eqb_eq in E. contradiction.
      * right. reflexivity.
Qed.

Lemma step_click_blank w :
  trim (input_value (dom w)) = [] -> step w Click = w.
Proof.
  intros H. cbn [step]. unfold onClick.
  rewrite (sendMessage_start_empty _ H). apply world_eta.
Qed.

(** X8: a second submit right after a submit does nothing: the first one
    left the input empty, so a double click, or a click together with
    Enter, sends the text once. *)
Theorem second_submit_is_noop w ev1 ev2 :
  submit_event ev1 = true ->
  submit_event ev2 = true ->
  step (step w ev1) ev2 = step w ev1.
Proof.
  intros H1 H2.
  rewrite (step_submit_is_click _ ev2 H2), (step_submit_is_click w ev1 H1).
  destruct (trim (input_value (dom w))) as [|c v] eqn:E.
  - rewrite (step_click_blank w E). apply step_click_blank, E.
  - rewrite (step_click_starts w) by (rewrite E; discriminate).
    apply step_click_blank. reflexivity.
Qed.

Lemma children_app (l1 l2 : list Node) :
  children (l1 ++ l2) = children l1 ++ children l2.
Proof. unfold children. apply filter_app. Qed.

Lemma children_prefix (l1 l2 : list Node) :
  l1 `prefix_of` l2 -> children l1 <> [] -> children l2 <> [].
Proof.
  intros [k ->] H. rewrite children_app.
  destruct (children l1); [contradiction | discriminate].
Qed.

Lemma onDOMContentLoaded_nonempty st :
  children (messages st) <> [] -> onDOMContentLoaded st = st.
Proof.
  intros H. unfold onDOMContentLoaded.
  destruct (children (messages st)); [contradiction | reflexivity].
Qed.

(** X9: the greeting is not repeated: once the [DOMContentLoaded] handler
    has run, running it again changes nothing, at once or after any
    events in between. *)
Theorem greeting_is_not_repeated w evs :
  onDOMContentLoaded (onDOMContentLoaded (dom w))
  = onDOMContentLoaded (dom w) /\
  step (run (step w DOMContentLoaded) evs) DOMContentLoaded
  = run (step w DOMContentLoaded) evs.
Proof.
  assert (Hne : children (messages (onDOMContentLoaded (dom w))) <> []).
  { rewrite onDOMContentLoaded_unfold.
    destruct (children (messages (dom w))) as [|m ms] eqn:E;
      cbn [length Nat.eqb].
    - rewrite messages_attach, children_app. cbn.
      destruct (children (messages (dom w))); discriminate.
    - rewrite E. discriminate. }
  split.
  - apply onDOMContentLoaded_nonempty, Hne.
  - cbn [step].
    rewrite onDOMContentLoaded_nonempty; [apply world_eta |].
    apply (children_prefix (messages (onDOMContentLoaded (dom w)))).
    + apply (run_extends evs (mkWorld (onDOMContentLoaded (dom w))
                                (tasks w))).
    + exact Hne.
Qed.

(** What each phase does to the indicator and to the request log. *)
Lemma typing_sendMessage_start st :
  (typing_display (state_of (sendMessage_start st)) = typing_display st /\
   typing_aria_hidden (state_of (sendMessage_start st))
   = typing_aria_hidden st /\
   sendMessage_start st = Return st) \/
  (typing_visible (state_of (sendMessage_start st)) /\
   sendMessage_start st = Await AwaitFetch (at_fetch st)).
Proof.
  destruct (trim (input_value st)) as [|c v] eqn:E.
  - left. rewrite (sendMessage_start_empty st E). auto.
  - right. rewrite sendMessage_start_nonempty by (rewrite E; discriminate).
    split; [split |]; reflexivity.
Qed.

Lemma sendMessage_fetched_outcome r st :
  sendMessage_fetched r st = Await AwaitJson st \/
  (fulfilled (sendMessage_fetched r st) /\
   typing_hidden (state_of (sendMessage_fetched r st)) /\
   network (state_of (sendMessage_fetched r st)) = network st /\
   exists text,
     messages (state_of (sendMessage_fetched r st))
     = messages st ++ [message_element text true]).
Proof.
  destruct r as [e | resp].
  - right. rewrite sendMessage_fetched_rejected.
    split; [exact I |]. split; [apply typing_hidden_showTyping |].
    split; [reflexivity |]. eexists. apply messages_failed.
  - destruct (ok resp) eqn:Hok.
    + left. apply sendMessage_fetched_ok, Hok.
    + right. rewrite (sendMessage_fetched_not_ok resp st Hok).
      split; [exact I |]. split; [apply typing_hidden_showTyping |].
      split; [reflexivity |]. eexists. cbn [state_of].
      rewrite messages_showTyping. apply messages_attach.
Qed.

Lemma typing_onDOMContentLoaded st :
  typing_display (onDOMContentLoaded st) = typing_display st /\
  typing_aria_hidden (onDOMContentLoaded st) = typing_aria_hidden st /\
  network (onDOMContentLoaded st) = network st.
Proof.
  rewrite onDOMContentLoaded_unfold.
  destruct (Nat.eqb (length (children (messages st))) 0); auto.
Qed.

Lemma visible_not_hidden st : typing_visible st -> typing_hidden st -> False.
Proof. intros [Hv _] [Hh _]. rewrite Hv in Hh. discriminate. Qed.

Lemma step_indicator w ev :
  (typing_display (dom (step w ev)) = typing_display (dom w) /\
   typing_aria_hidden (dom (step w ev)) = typing_aria_hidden (dom w)) \/
  indicator_consistent (dom (step w ev)).
Proof.
  assert (Hsub : forall st,
    (typing_display (dom (spawn (sendMessage_start st) w))
     = typing_display st /\
     typing_aria_hidden (dom (spawn (sendMessage_start st) w))
     = typing_aria_hidden st) \/
    indicator_consistent (dom (spawn (sendMessage_start st) w))).
  { intros st. rewrite dom_spawn.
    destruct (typing_sendMessage_start st) as [(H1 & H2 & _) | [Hv _]];
      [left; auto | right; left; exact Hv]. }
  destruct ev as [s | | key shiftKey | | i r | i r]; cbn [step].
  - left. split; reflexivity.
  - apply Hsub.
  - unfold onKeydown.
    destruct (str_eqb key (str "Enter") && negb shiftKey);
      [apply Hsub | left; split; reflexivity].
  - left. cbn [dom].
    destruct (typing_onDOMContentLoaded (dom w)) as (H1 & H2 & _). auto.
  - destruct (tasks w !! i) as [[[|] |] |]; try (left; split; reflexivity).
    rewrite dom_resume.
    destruct (sendMessage_fetched_outcome r (dom w)) as [-> | (_ & Hh & _)];
      [left; split; reflexivity | right; right; exact Hh].
  - destruct (tasks w !! i) as [[[|] |] |]; try (left; split; reflexivity).
    rewrite dom_resume. right. right.
    apply typing_hidden_sendMessage_parsed.
Qed.

(** X10: the two attributes of the typing indicator stay in step: when
    [display] and [aria-hidden] agree on a page, they agree after every
    run of events. *)
Theorem indicator_attributes_agree evs : forall w,
  indicator_consistent (dom w) ->
  indicator_consistent (dom (run w evs)).
Proof.
  induction evs as [|ev evs IH]; intros w Hw; cbn [run fold_left].
  - exact Hw.
  - apply IH. destruct (step_indicator w ev) as [[Hd Ha] | Hc];
      [| exact Hc].
    destruct Hw as [[H1 H2] | [H1 H2]]; [left | right];
      split; congruence.
Qed.

Lemma pending_spawn c w : pending w -> pending (spawn c w).
Proof.
  intros (i & f & H). exists i, f. apply tasks_spawn, H.
Qed.

Lemma step_pending w ev :
  (typing_visible (dom w) -> pending w) ->
  typing_visible (dom (step w ev)) -> pending (step w ev).
Proof.
  intros Hinv.
  assert (Hsub : forall st,
    (typing_visible st -> pending w) ->
    typing_visible (dom (spawn (sendMessage_start st) w)) ->
    pending (spawn (sendMessage_start st) w)).
  { intros st Hst. rewrite dom_spawn.
    destruct (typing_sendMessage_start st) as [(H1 & H2 & E) | [_ E]];
      rewrite E.
    - intros [Hv1 Hv2]. apply pending_spawn, Hst.
      cbn [state_of] in *. split; assumption.
    - intros _. exists (length (tasks w)), AwaitFetch. cbn [spawn tasks].
      rewrite lookup_app_r by lia. rewrite Nat.sub_diag. reflexivity. }
  destruct ev as [s | | key shiftKey | | i r | i r]; cbn [step].
  - exact Hinv.
  - apply Hsub, Hinv.
  - unfold onKeydown.
    destruct (str_eqb key (str "Enter") && negb shiftKey);
      [apply Hsub, Hinv |].
    intros Hv. apply pending_spawn, Hinv, Hv.
  - cbn [dom]. intros [Hv1 Hv2]. 
    destruct (typing_onDOMContentLoaded (dom w)) as (H1 & H2 & _).
    destruct Hinv as (j & f & Hj); [split; congruence |].
    exists j, f. exact Hj.
  - destruct (tasks w !! i) as [[[|] |] |] eqn:Hi; try exact Hinv.
    rewrite dom_resume.
    destruct (sendMessage_fetched_outcome r (dom w)) as [E | (_ & Hh & _)].
    + rewrite E. intros _. exists i, AwaitJson.
      exact (tasks_resume_same i (Await AwaitJson (dom w)) w _ Hi).
    + intros Hv. destruct (visible_not_hidden _ Hv Hh).
  - destruct (tasks w !! i) as [[[|] |] |] eqn:Hi; try exact Hinv.
    rewrite dom_resume. intros Hv.
    destruct (visible_not_hidden _ Hv
                (typing_hidden_sendMessage_parsed r (dom w))).
Qed.

(** X11: the typing indicator is never shown with nothing in flight: on a
    page where a visible indicator comes with a suspended call, after every
    run of events a visible indicator still comes with a suspended call. *)
Theorem visible_indicator_has_pending_call evs : forall w,
  (typing_visible (dom w) -> pending w) ->
  typing_visible (dom (run w evs)) -> pending (run w evs).
Proof.
  induction evs as [|ev evs IH]; intros w Hw; cbn [run fold_left].
  - exact Hw.
  - apply IH. apply step_pending, Hw.
Qed.

Lemma length_tasks_resume i c w :
  length (tasks (resume i c w)) = length (tasks w).
Proof. destruct c; cbn [resume tasks]; apply length_insert. Qed.

(** The trimmed text is a fixed point of [trim]. *)
Lemma trimStart_fixed_point (t : jsstring) :
  (forall c r, t = c :: r -> is_white_space c = false) ->
  trimStart t = t.
Proof.
  destruct t as [|c r]; [reflexivity |]. intros H. cbn [trimStart].
  rewrite (H c r eq_refl). reflexivity.
Qed.

Lemma trim_idempotent (s : jsstring) : trim (trim s) = trim s.
Proof.
  assert (Hhead : forall c r, trim s = c :: r -> is_white_space c = false).
  { intros c r Hcr. unfold trim in Hcr.
    destruct (trimEnd_split (trimStart s)) as (post & Ht & _).
    rewrite Hcr in Ht.
    apply (trimStart_head s c (r ++ post)). exact Ht. }
  assert (Hlast : forall c r, rev (trim s) = c :: r ->
                              is_white_space c = false).
  { intros c r Hcr. unfold trim, trimEnd in Hcr.
    rewrite rev_involutive in Hcr.
    apply (trimStart_head _ c r Hcr). }
  unfold trim at 1. rewrite (trimStart_fixed_point _ Hhead).
  unfold trimEnd. rewrite (trimStart_fixed_point _ Hlast).
  apply rev_involutive.
Qed.

Lemma step_requests w ev :
  exists texts,
    network (dom (step w ev)) = network (dom w) ++ map chat_request texts /\
    length (tasks (step w ev)) = (length (tasks w) + length texts)%nat /\
    Forall (fun t => t <> [] /\ trim t = t) texts.
Proof.
  assert (Hnone : forall w', network (dom w') = network (dom w) ->
                             length (tasks w') = length (tasks w) ->
    exists texts,
      network (dom w') = network (dom w) ++ map chat_request texts /\
      length (tasks w') = (length (tasks w) + length texts)%nat /\
      Forall (fun t => t <> [] /\ trim t = t) texts).
  { intros w' Hn Ht. exists []. cbn [map length].
    rewrite app_nil_r, Nat.add_0_r. auto. }
  assert (Hsub :
    exists texts,
      network (dom (spawn (sendMessage_start (dom w)) w))
      = network (dom w) ++ map chat_request texts /\
      length (tasks (spawn (sendMessage_start (dom w)) w))
      = (length (tasks w) + length texts)%nat /\
      Forall (fun t => t <> [] /\ trim t = t) texts).
  { destruct (trim (input_value (dom w))) as [|c v] eqn:E.
    - rewrite (sendMessage_start_empty _ E). apply Hnone; reflexivity.
    - rewrite sendMessage_start_nonempty by (rewrite E; discriminate).
      exists [trim (input_value (dom w))]. cbn [spawn dom tasks map length].
      split; [reflexivity |]. split; [apply length_app |].
      constructor; [| constructor].
      split; [rewrite E; discriminate | apply trim_idempotent]. }
  destruct ev as [s | | key shiftKey | | i r | i r]; cbn [step].
  - apply Hnone; reflexivity.
  - exact Hsub.
  - unfold onKeydown.
    destruct (str_eqb key (str "Enter") && negb shiftKey);
      [exact Hsub | apply Hnone; reflexivity].
  - apply Hnone; [| reflexivity]. cbn [dom].
    apply (typing_onDOMContentLoaded (dom w)).
  - destruct (tasks w !! i) as [[[|] |] |];
      try (apply Hnone; reflexivity).
    apply Hnone; [| apply length_tasks_resume].
    rewrite dom_resume.
    destruct (sendMessage_fetched_outcome r (dom w))
      as [-> | (_ & _ & Hn & _)]; [reflexivity | exact Hn].
  - destruct (tasks w !! i) as [[[|] |] |];
      try (apply Hnone; reflexivity).
    apply Hnone; [| apply length_tasks_resume].
    rewrite dom_resume. apply network_sendMessage_parsed.
Qed.

Lemma run_requests evs : forall w,
  exists texts,
    network (dom (run w evs)) = network (dom w) ++ map chat_request texts /\
    length (tasks (run w evs)) = (length (tasks w) + length texts)%nat /\
    Forall (fun t => t <> [] /\ trim t = t) texts.
Proof.
  induction evs as [|ev evs IH]; intros w; cbn [run fold_left].
  - exists []. cbn [map length]. rewrite app_nil_r, Nat.add_0_r. auto.
  - destruct (step_requests w ev) as (t1 & Hn1 & Hl1 & Hf1).
    destruct (IH (step w ev)) as (t2 & Hn2 & Hl2 & Hf2).
    exists (t1 ++ t2). unfold run in *.
    rewrite Hn2, Hn1, Hl2, Hl1, map_app, length_app, <- app_assoc.
    split; [reflexivity |]. split; [lia |].
    apply Forall_app. split; assumption.
Qed.

(** X12: the requests of the controller.  Over every run of events the
    request log only grows, and only by requests to the URL [/chat] with
    method [POST], the one header [Content-Type: application/json] and as
    body the JSON text of an object whose single member [message] is a
    text that is not empty and has no outer white space; there is exactly
    one new request for each call of [sendMessage] that was started. *)
Theorem requests_are_chat_posts evs : forall w,
  exists texts,
    network (dom (run w evs))
    = network (dom w)
      ++ map (fun t =>
                mkRequest (str "/chat") (str "POST")
                  [(str "Content-Type", str "application/json")]
                  (JSON_stringify_message t)) texts /\
    length (tasks (run w evs)) = (length (tasks w) + length texts)%nat /\
    Forall (fun t => t <> [] /\ trim t = t /\
                     read_message_object (JSON_stringify_message t)
                     = Some t) texts.
Proof.
  intros w. destruct (run_requests evs w) as (texts & Hn & Hl & Hf).
  exists texts. split; [exact Hn |]. split; [exact Hl |].
  apply Forall_forall. intros t Ht.
  rewrite Forall_forall in Hf. destruct (Hf t Ht) as [H1 H2].
  split; [exact H1 |]. split; [exact H2 |].
  apply read_message_object_stringify.
Qed.

(** X13: there is no retry: the settlement of a request, whatever its
    outcome, and the settlement of a body read issue no request. *)
Theorem settlements_issue_no_request w i :
  (forall r, network (dom (step w (FetchSettled i r))) = network (dom w)) /\
  (forall r, network (dom (step w (JsonSettled i r))) = network (dom w)).
Proof.
  split; intros r; cbn [step];
    destruct (tasks w !! i) as [[[|] |] |]; try reflexivity;
    rewrite dom_resume.
  - destruct (sendMessage_fetched_outcome r (dom w))
      as [-> | (_ & _ & Hn & _)]; [reflexivity | exact Hn].
  - apply network_sendMessage_parsed.
Qed.

Lemma is_message_message_element s isBot :
  is_message (message_element s isBot) = true.
Proof.
  unfold message_element, set_textContent.
  destruct s; destruct isBot; reflexivity.
Qed.

Lemma step_adds w ev :
  messages (dom (step w ev)) = messages (dom w) \/
  exists s isBot,
    messages (dom (step w ev))
    = messages (dom w) ++ [message_element s isBot].
Proof.
  assert (Hev : ev = DOMContentLoaded \/ ev <> DOMContentLoaded)
    by (destruct ev; try (right; discriminate); left; reflexivity).
  destruct Hev as [-> | Hev].
  2: { destruct (step_cases w ev Hev)
         as [[Hm _] | [(_ & Hm & _) | [(j & _ & Hm & _)
                                      | (j & f & t & _ & Hm & _)]]];
         [left; exact Hm | right; eexists _, false; exact Hm
         | left; exact Hm | right; eexists _, true; exact Hm]. }
  cbn [step dom]. rewrite onDOMContentLoaded_unfold.
  destruct (Nat.eqb (length (children (messages (dom w)))) 0);
    [| left; reflexivity].
  right. eexists _, true. apply messages_attach.
Qed.

(** X14: what an event can add to the view.  Every event adds nothing or
    exactly one node at the end, and that node is a message element: a
    wrapper with one bubble of the same sender class, the bubble holding
    text only, which reads back as the converted text.  A reply of the
    backend is shown as text and never becomes an element. *)
Theorem events_add_plain_messages :
  (forall s isBot,
      is_message (message_element s isBot) = true /\
      textContent (message_element s isBot) = s) /\
  (forall w ev,
      messages (dom (step w ev)) = messages (dom w) \/
      exists s isBot,
        messages (dom (step w ev))
        = messages (dom w) ++ [message_element s isBot]).
Proof.
  split.
  - intros s isBot. split.
    + apply is_message_message_element.
    + apply textContent_message_element.
  - apply step_adds.
Qed.

(** X15: replies are shown in the order the responses arrive.  With two
    requests in flight, when the later one is answered first (here both
    with a status outside 200..299), its message comes first in the view. *)
Theorem replies_in_arrival_order w i j ri rj :
  tasks w !! i = Some (Some AwaitFetch) ->
  tasks w !! j = Some (Some AwaitFetch) ->
  i <> j ->
  ok ri = false ->
  ok rj = false ->
  messages (dom (run w [FetchSettled j (inr rj); FetchSettled i (inr ri)]))
  = messages (dom w)
    ++ [Element (str "message bot")
          [Element (str "bubble bot")
             [Text (str "Server error (" ++ decimal (status rj)
                      ++ str ")")]];
        Element (str "message bot")
          [Element (str "bubble bot")
             [Text (str "Server error (" ++ decimal (status ri)
                      ++ str ")")]]].
Proof.
  intros Hi Hj Hij Hoi Hoj. cbn [run fold_left].
  assert (E1 : step w (FetchSettled j (inr rj))
               = resume j (sendMessage_fetched (inr rj) (dom w)) w).
  { cbn [step]. rewrite Hj. reflexivity. }
  rewrite E1.
  set (w1 := resume j (sendMessage_fetched (inr rj) (dom w)) w).
  assert (Hi1 : tasks w1 !! i = Some (Some AwaitFetch)).
  { unfold w1. rewrite tasks_resume_other by exact Hij. exact Hi. }
  cbn [step]. rewrite Hi1, dom_resume.
  rewrite (sendMessage_fetched_not_ok ri _ Hoi). cbn [state_of].
  rewrite messages_showTyping, messages_attach.
  unfold w1. rewrite dom_resume.
  rewrite (sendMessage_fetched_not_ok rj _ Hoj). cbn [state_of].
  rewrite messages_showTyping, messages_attach, two_appended.
  reflexivity.
Qed.

Lemma tasks_concluded_stay w ev i :
  tasks w !! i = Some None -> tasks (step w ev) !! i = Some None.
Proof.
  intros Hi.
  destruct ev as [s | | key shiftKey | | j r | j r]; cbn [step].
  - exact Hi.
  - apply tasks_spawn, Hi.
  - apply tasks_spawn, Hi.
  - exact Hi.
  - destruct (tasks w !! j) as [[[|] |] |] eqn:Hj; try exact Hi.
    rewrite tasks_resume_other; [exact Hi | congruence].
  - destruct (tasks w !! j) as [[[|] |] |] eqn:Hj; try exact Hi.
    rewrite tasks_resume_other; [exact Hi | congruence].
Qed.

(** X16: the life of one call among overlapping ones.  The event at which
    a suspended call concludes adds exactly one message of class [bot] at
    the end of the view; the event that moves a call from the response to
    the body read changes nothing on the page; and a call that has
    concluded stays concluded under every later event. *)
Theorem suspended_call_adds_one_bot_message w :
  (forall ev i f,
      tasks w !! i = Some (Some f) ->
      tasks (step w ev) !! i = Some None ->
      exists s,
        messages (dom (step w ev)) = messages (dom w) ++ [bot_node s]) /\
  (forall i r,
      tasks w !! i = Some (Some AwaitFetch) ->
      tasks (step w (FetchSettled i r)) !! i = Some (Some AwaitJson) ->
      dom (step w (FetchSettled i r)) = dom w) /\
  (forall ev i,
      tasks w !! i = Some None -> tasks (step w ev) !! i = Some None).
Proof.
  split; [| split].
  - intros ev i f Hi Hdone.
    destruct (proj2 (step_concluding w ev i f Hi Hdone)) as [s Hs].
    exists s. rewrite Hs, message_element_bot. reflexivity.
  - intros i r. apply step_still_pending.
  - intros ev i. apply tasks_concluded_stay.
Qed.


End Controller.

(** ** The properties at concrete inputs *)

Lemma send_appends_user_then_one_bot_witness :
  trim (input_value example_state) <> [] /\
  concludes example_success /\
  fulfilled (sendMessage example_runtime example_state example_success) /\
  exists s,
    messages (state_of (sendMessage example_runtime example_state
                          example_success))
    = messages example_state
      ++ [Element (str "message user")
            [Element (str "bubble user")
               [Text (trim (input_value example_state))]];
          bot_node s] /\
    (s = str "Network error: failed to reach the server." \/
     (exists resp b, example_success = FetchResolves resp b /\
                     ok resp = false /\
                     s = str "Server error (" ++ decimal (status resp)
                           ++ str ")") \/
     (exists resp data v,
         example_success = FetchResolves resp (BodyResolves data) /\
         ok resp = true /\ botText_of data = inr v /\
         DOMString_of example_runtime v = inr s)).
Proof.
  assert (H1 : trim (input_value example_state) <> [])
    by (vm_compute; discriminate).
  assert (H2 : concludes example_success) by (right; discriminate).
  exact (conj H1 (conj H2
    (conj
       (proj1 (send_appends_user_then_one_bot example_runtime
                 example_state example_success H1 H2))
       (proj1 (proj2 (send_appends_user_then_one_bot example_runtime
                        example_state example_success H1 H2)))))).
Defined.

Lemma send_blank_is_noop_witness :
  Forall (fun c => is_white_space c = true) (input_value blank_state) /\
  sendMessage example_runtime blank_state example_success
  = Return blank_state.
Proof.
  assert (H : Forall (fun c => is_white_space c = true)
                (input_value blank_state))
    by (repeat constructor).
  exact (conj H
    (proj1 (send_blank_is_noop example_runtime blank_state example_success
              H))).
Defined.



Lemma server_error_renders_status_witness :
  trim (input_value example_state) <> [] /\
  ok (mkResponse 500) = false /\
  exists st',
    sendMessage example_runtime example_state
      (FetchResolves (mkResponse 500) BodyPending) = Return st' /\
    messages st'
    = [Element (str "message user")
         [Element (str "bubble user") [Text (str "hello")]];
       Element (str "message bot")
         [Element (str "bubble bot") [Text (str "Server error (500)")]]] /\
    console st'
    = [ConsoleLog [VStr (str "Intent:"); VStr (str "error");
                   VStr (str "Confidence:"); VNum 0%float]].
Proof.
  assert (H1 : trim (input_value example_state) <> [])
    by (vm_compute; discriminate).
  assert (H2 : ok (mkResponse 500) = false) by reflexivity.
  exact (conj H1 (conj H2
    (proj1 (server_error_renders_status example_runtime
              example_state (mkResponse 500) BodyPending H1 H2)))).
Defined.

Lemma network_failure_renders_fixed_text_witness :
  trim (input_value example_state) <> [] /\
  exists st' bot,
    sendMessage example_runtime example_state
      (FetchRejects example_rejection) = Normal st' /\
    messages st'
    = messages example_state
      ++ [Element (str "message user")
            [Element (str "bubble user")
               [Text (trim (input_value example_state))]];
          bot] /\
    bot = Element (str "message bot")
            [Element (str "bubble bot")
               [Text (str "Network error: failed to reach the server.")]]
    /\
    textContent bot = str "Network error: failed to reach the server." /\
    console st'
    = console example_state
      ++ [ConsoleLog [VStr (str "Intent:"); VStr (str "error");
                      VStr (str "Confidence:"); VNum 0%float];
          ConsoleError (str "Chat send error:") example_rejection].
Proof.
  assert (H1 : trim (input_value example_state) <> [])
    by (vm_compute; discriminate).
  exact (conj H1
    (proj1 (network_failure_renders_fixed_text example_runtime
              example_state example_rejection H1))).
Defined.

Lemma typing_indicator_shown_then_hidden_witness :
  trim (input_value example_state) <> [] /\
  forall reply, concludes reply ->
    typing_hidden (state_of (sendMessage example_runtime example_state
                               reply)).
Proof.
  assert (H1 : trim (input_value example_state) <> [])
    by (vm_compute; discriminate).
  exact (conj H1
    (proj1 (proj2 (typing_indicator_shown_then_hidden example_runtime
                     example_state H1)))).
Defined.

Lemma send_issues_one_post_witness :
  trim (input_value example_state) <> [] /\
  network (state_of (sendMessage example_runtime example_state
                       example_success))
  = [mkRequest (str "/chat") (str "POST")
       [(str "Content-Type", str "application/json")]
       (JSON_stringify_message (str "hello"))].
Proof.
  assert (H1 : trim (input_value example_state) <> [])
    by (vm_compute; discriminate).
  exact (conj H1
    (proj1 (send_issues_one_post example_runtime example_state
              example_success H1))).
Defined.

Lemma unparsable_body_renders_network_error_witness :
  trim (input_value example_state) <> [] /\
  ok (mkResponse 200) = true /\
  exists st' bot,
    sendMessage example_runtime example_state
      (FetchResolves (mkResponse 200) (BodyRejects example_parse_failure))
    = Normal st' /\
    messages st'
    = messages example_state
      ++ [Element (str "message user")
            [Element (str "bubble user")
               [Text (trim (input_value example_state))]];
          bot] /\
    bot = Element (str "message bot")
            [Element (str "bubble bot")
               [Text (str "Network error: failed to reach the server.")]] /\
    textContent bot = str "Network error: failed to reach the server." /\
    textContent bot <> str "I'm sorry, I couldn't process that." /\
    console st'
    = console example_state
      ++ [ConsoleLog [VStr (str "Intent:"); VStr (str "error");
                      VStr (str "Confidence:"); VNum 0%float];
          ConsoleError (str "Chat send error:") example_parse_failure].
Proof.
  assert (H1 : trim (input_value example_state) <> [])
    by (vm_compute; discriminate).
  assert (H2 : ok (mkResponse 200) = true) by reflexivity.
  exact (conj H1 (conj H2
    (unparsable_body_renders_network_error example_runtime
       example_state (mkResponse 200) example_parse_failure H1 H2))).
Defined.

(** ** The flow on the concrete inputs *)

Example reply_text_is_shown :
  map textContent
    (messages (state_of (sendMessage example_runtime example_state
                           example_success)))
  = [str "hello"; str "hi"].
Proof. vm_compute. reflexivity. Qed.

Example missing_response_shows_fallback :
  map textContent
    (messages (state_of (sendMessage example_runtime example_state
       (FetchResolves (mkResponse 200) (BodyResolves (VObj []))))))
  = [str "hello"; str "I'm sorry, I couldn't process that."].
Proof. vm_compute. reflexivity. Qed.

Example status_500_is_shown :
  map textContent
    (messages (state_of (sendMessage example_runtime example_state
       (FetchResolves (mkResponse 500) BodyPending))))
  = [str "hello"; str "Server error (500)"].
Proof. vm_compute. reflexivity. Qed.

Example rejected_fetch_shows_network_error :
  map textContent
    (messages (state_of (sendMessage example_runtime example_state
       (FetchRejects example_rejection))))
  = [str "hello"; str "Network error: failed to reach the server."].
Proof. vm_compute. reflexivity. Qed.

(** A body that is JSON [null]: line 57 guards [data], line 58 reads
    [data.intent] without the guard, and the [catch] block renders the
    network-error text. *)
Example null_body_shows_network_error :
  map textContent
    (messages (state_of (sendMessage example_runtime example_state
       (FetchResolves (mkResponse 200) (BodyResolves VNull)))))
  = [str "hello"; str "Network error: failed to reach the server."] /\
  last (console (state_of (sendMessage example_runtime example_state
       (FetchResolves (mkResponse 200) (BodyResolves VNull)))))
  = Some (ConsoleError (str "Chat send error:")
            (TypeErrorNullish (str "intent"))).
Proof. split; vm_compute; reflexivity. Qed.

Example pending_fetch_keeps_indicator :
  typing_visible (state_of (sendMessage example_runtime example_state
                              FetchPending)) /\
  map textContent
    (messages (state_of (sendMessage example_runtime example_state
                           FetchPending)))
  = [str "hello"].
Proof. split; [split |]; vm_compute; reflexivity. Qed.

Example welcome_despite_text_node :
  map textContent
    (children
       (messages (onDOMContentLoaded example_runtime
          (mkState [] false [Text (str " ")] (str "none") (str "true")
             [] []))))
  = [greeting_text].
Proof. vm_compute. reflexivity. Qed.

Example overlapping_calls_in_completion_order :
  map textContent
    (messages (dom (run example_runtime example_world overlapping_events)))
  = [str "hello"; str "again"; str "hi"; str "Server error (503)"] /\
  tasks (run example_runtime example_world overlapping_events)
  = [None; None] /\
  typing_hidden
    (dom (run example_runtime example_world overlapping_events)).
Proof. split; [| split; [| split]]; vm_compute; reflexivity. Qed.

Example request_body_text :
  JSON_stringify_message (str "hello")
  = 123 :: 34 :: str "message" ++ 34 :: 58 :: 34 :: str "hello" ++ [34; 125].
Proof. vm_compute. reflexivity. Qed.

(** ** The further properties at concrete inputs *)

Lemma send_clears_and_focuses_input_witness :
  trim (input_value example_state) <> [] /\
  input_value (state_of (sendMessage example_runtime example_state
                           (FetchRejects example_rejection))) = [] /\
  input_focused (state_of (sendMessage example_runtime example_state
                             (FetchRejects example_rejection))) = true.
Proof.
  assert (H1 : trim (input_value example_state) <> [])
    by (vm_compute; discriminate).
  exact (conj H1
    (send_clears_and_focuses_input example_runtime example_state
       (FetchRejects example_rejection) H1)).
Defined.


Lemma reply_logs_intent_and_confidence_witness :
  trim (input_value example_state) <> [] /\
  ok (mkResponse 200) = true /\
  nullish example_body = false /\
  console (state_of (sendMessage example_runtime example_state
                       example_success))
  = [ConsoleLog [VStr (str "Intent:"); VStr (str "greet");
                 VStr (str "Confidence:"); VNum 0.9%float]].
Proof.
  assert (H1 : trim (input_value example_state) <> [])
    by (vm_compute; discriminate).
  assert (H2 : ok (mkResponse 200) = true) by reflexivity.
  assert (H3 : nullish example_body = false) by reflexivity.
  exact (conj H1 (conj H2 (conj H3
    (reply_logs_intent_and_confidence example_runtime example_state
       (mkResponse 200) example_body H1 H2 H3)))).
Defined.

Lemma failure_paths_log_witness :
  trim (input_value example_state) <> [] /\
  console (state_of (sendMessage example_runtime example_state
                       (FetchRejects example_rejection)))
  = [ConsoleLog [VStr (str "Intent:"); VStr (str "error");
                 VStr (str "Confidence:"); VNum 0%float];
     ConsoleError (str "Chat send error:") example_rejection].
Proof.
  assert (H1 : trim (input_value example_state) <> [])
    by (vm_compute; discriminate).
  exact (conj H1
    (proj1 (proj2 (failure_paths_log example_runtime example_state
                     (mkResponse 500) BodyPending example_rejection H1)))).
Defined.

Lemma null_body_is_caught_witness :
  trim (input_value example_state) <> [] /\
  ok (mkResponse 200) = true /\
  exists st' bot,
    sendMessage example_runtime example_state
      (FetchResolves (mkResponse 200) (BodyResolves VNull)) = Normal st' /\
    messages st'
    = messages example_state
      ++ [Element (str "message user")
            [Element (str "bubble user")
               [Text (trim (input_value example_state))]];
          bot] /\
    bot = Element (str "message bot")
            [Element (str "bubble bot")
               [Text (str "Network error: failed to reach the server.")]] /\
    textContent bot = str "Network error: failed to reach the server." /\
    console st'
    = console example_state
      ++ [ConsoleLog [VStr (str "Intent:"); VStr (str "error");
                      VStr (str "Confidence:"); VNum 0%float];
          ConsoleError (str "Chat send error:")
            (TypeErrorNullish (str "intent"))].
Proof.
  assert (H1 : trim (input_value example_state) <> [])
    by (vm_compute; discriminate).
  assert (H2 : ok (mkResponse 200) = true) by reflexivity.
  exact (conj H1 (conj H2
    (null_body_is_caught example_runtime example_state
       (mkResponse 200) H1 H2))).
Defined.


Lemma second_submit_is_noop_witness :
  submit_event Click = true /\
  submit_event (Keydown (str "Enter") false) = true /\
  step example_runtime (step example_runtime example_world Click)
    (Keydown (str "Enter") false)
  = step example_runtime example_world Click.
Proof.
  assert (H1 : submit_event Click = true) by reflexivity.
  assert (H2 : submit_event (Keydown (str "Enter") false) = true)
    by reflexivity.
  exact (conj H1 (conj H2
    (second_submit_is_noop example_runtime example_world Click
       (Keydown (str "Enter") false) H1 H2))).
Defined.

Lemma indicator_attributes_agree_witness :
  indicator_consistent (dom example_world) /\
  indicator_consistent
    (dom (run example_runtime example_world overlapping_events)).
Proof.
  assert (H1 : indicator_consistent (dom example_world))
    by (right; split; reflexivity).
  exact (conj H1
    (indicator_attributes_agree example_runtime overlapping_events
       example_world H1)).
Defined.

Lemma visible_indicator_has_pending_call_witness :
  (typing_visible (dom example_world) -> pending example_world) /\
  typing_visible (dom (run example_runtime example_world [Click])) /\
  pending (run example_runtime example_world [Click]).
Proof.
  assert (H1 : typing_visible (dom example_world) -> pending example_world).
  { intros [H _]. vm_compute in H. discriminate. }
  assert (H2 : typing_visible
                 (dom (run example_runtime example_world [Click])))
    by (split; reflexivity).
  exact (conj H1 (conj H2
    (visible_indicator_has_pending_call example_runtime [Click]
       example_world H1 H2))).
Defined.

Lemma replies_in_arrival_order_witness :
  tasks two_pending_world !! 0%nat = Some (Some AwaitFetch) /\
  tasks two_pending_world !! 1%nat = Some (Some AwaitFetch) /\
  0%nat <> 1%nat /\
  ok (mkResponse 500) = false /\
  ok (mkResponse 404) = false /\
  map textContent
    (messages (dom (run example_runtime two_pending_world
       [FetchSettled 1 (inr (mkResponse 404));
        FetchSettled 0 (inr (mkResponse 500))])))
  = [str "Server error (404)"; str "Server error (500)"].
Proof.
  assert (H1 : tasks two_pending_world !! 0%nat = Some (Some AwaitFetch))
    by reflexivity.
  assert (H2 : tasks two_pending_world !! 1%nat = Some (Some AwaitFetch))
    by reflexivity.
  assert (H3 : 0%nat <> 1%nat) by discriminate.
  assert (H4 : ok (mkResponse 500) = false) by reflexivity.
  assert (H5 : ok (mkResponse 404) = false) by reflexivity.
  refine (conj H1 (conj H2 (conj H3 (conj H4 (conj H5 _))))).
  rewrite (replies_in_arrival_order example_runtime two_pending_world
             0%nat 1%nat (mkResponse 500) (mkResponse 404) H1 H2 H3 H4 H5).
  reflexivity.
Defined.

Lemma suspended_call_adds_one_bot_message_witness :
  tasks two_pending_world !! 0%nat = Some (Some AwaitFetch) /\
  tasks (step example_runtime two_pending_world
           (FetchSettled 0 (inr (mkResponse 500)))) !! 0%nat = Some None /\
  exists s,
    messages (dom (step example_runtime two_pending_world
                     (FetchSettled 0 (inr (mkResponse 500)))))
    = messages (dom two_pending_world) ++ [bot_node s].
Proof.
  assert (H1 : tasks two_pending_world !! 0%nat = Some (Some AwaitFetch))
    by reflexivity.
  assert (H2 : tasks (step example_runtime two_pending_world
                        (FetchSettled 0 (inr (mkResponse 500)))) !! 0%nat
               = Some None) by reflexivity.
  exact (conj H1 (conj H2
    (proj1 (suspended_call_adds_one_bot_message example_runtime
              two_pending_world)
       (FetchSettled 0 (inr (mkResponse 500))) 0%nat AwaitFetch H1 H2))).
Defined.

(** The reply of [unconvertible_body] is not shown. *)
Example unconvertible_reply_shows_network_error :
  map textContent
    (messages (state_of (sendMessage example_runtime example_state
       (FetchResolves (mkResponse 200) (BodyResolves unconvertible_body)))))
  = [str "hello"; str "Network error: failed to reach the server."] /\
  console (state_of (sendMessage example_runtime example_state
       (FetchResolves (mkResponse 200) (BodyResolves unconvertible_body))))
  = [ConsoleLog [VStr (str "Intent:"); VStr (str "error");
                 VStr (str "Confidence:"); VNum 0%float];
     ConsoleError (str "Chat send error:") TypeErrorToPrimitive].
Proof. split; vm_compute; reflexivity. Qed.
